(** * Text Toolkit API: the [/analyze] handler of [main.py]

    A shallow embedding of the FastAPI handler [analyze] and of its helper
    [call_ollama], together with the parts of the Python runtime they rely on
    ([str.strip], [str.split], [str.lower], the [in] operator on strings,
    [json.loads] and [str()] of decoded JSON values).

    Python strings are sequences of Unicode code points; they are embedded as
    lists of code points ([N]).  Python integers are unbounded ([Z]).
    The interpreter is idealised in two respects: it sets no limit on the
    depth of recursion and none on the number of digits of an integer
    literal.

    The file has three parts: the embedding of the program, the vocabulary
    of the statements with the inputs they are run on, and the proofs. *)

From Stdlib Require Import List NArith ZArith Bool Ascii String Lia.
From Stdlib Require Import DecimalString DecimalPos.
Import ListNotations.

Set Implicit Arguments.
Local Open Scope N_scope.


(* ################################################################## *)
(** * Part I: the program and its runtime *)
(* ################################################################## *)

(* ================================================================== *)
(** ** Python strings *)
(* ================================================================== *)

Module PyStr.

Definition char := N.
Definition str := list char.

(** An ASCII literal of the source text, as a Python string. *)
Definition lit (s : string) : str := map N_of_ascii (list_ascii_of_string s).
Arguments lit s%_string.

Definition str_eqb (a b : str) : bool :=
  if list_eq_dec N.eq_dec a b then true else false.

(** [Py_UNICODE_ISSPACE]: the code points [str.strip()] removes when called
    without argument (bidirectional type WS, B or S, or category Zs). *)
Definition isspace (c : char) : bool :=
  ((9 <=? c) && (c <=? 13)) || ((28 <=? c) && (c <=? 32))
  || (c =? 133) || (c =? 160) || (c =? 5760)
  || ((8192 <=? c) && (c <=? 8202))
  || (c =? 8232) || (c =? 8233) || (c =? 8239) || (c =? 8287)
  || (c =? 12288).

Fixpoint lstrip (s : str) : str :=
  match s with
  | c :: s' => if isspace c then lstrip s' else s
  | [] => []
  end.

Definition rstrip (s : str) : str := rev (lstrip (rev s)).

(** [s.strip()] *)
Definition strip (s : str) : str := rstrip (lstrip s).

(** [s.split(sep)] for a one-character separator: every occurrence splits,
    empty pieces are kept, and the result is never the empty list. *)
Fixpoint split (sep : char) (s : str) : list str :=
  match s with
  | [] => [[]]
  | c :: s' =>
      if c =? sep then [] :: split sep s'
      else match split sep s' with
           | p :: ps => (c :: p) :: ps
           | [] => [[c]]
           end
  end.

(** [sep.join(pieces)] *)
Fixpoint join (sep : str) (pieces : list str) : str :=
  match pieces with
  | [] => []
  | [p] => p
  | p :: ps => p ++ sep ++ join sep ps
  end.

Fixpoint startswith (s prefix : str) {struct prefix} : bool :=
  match prefix, s with
  | [], _ => true
  | p :: prefix', c :: s' => (c =? p) && startswith s' prefix'
  | _ :: _, [] => false
  end.

(** [needle in s] *)
Fixpoint contains (s needle : str) : bool :=
  startswith s needle ||
  match s with
  | [] => false
  | _ :: s' => contains s' needle
  end.

Definition is_ascii (c : char) : bool := c <? 128.

Definition ascii_lower (c : char) : char :=
  if (65 <=? c) && (c <=? 90) then c + 32 else c.

(** A surrogate code point.  A string that holds one has no UTF-8
    encoding: [s.encode("utf-8")] raises. *)
Definition is_surrogate (c : char) : bool := (55296 <=? c) && (c <=? 57343).

Definition utf8_encodable (s : str) : bool :=
  forallb (fun c => negb (is_surrogate c)) s.

(** [str(n)] for an integer. *)
Definition str_of_Z (z : Z) : str := lit (NilZero.string_of_int (Z.to_int z)).

End PyStr.
Import PyStr.

(* ================================================================== *)
(** ** Python values decoded from JSON, [json.loads] *)
(* ================================================================== *)

Module PyJson.

Definition ch (a : ascii) : char := N_of_ascii a.
Arguments ch a%_char.

(** Double quote and backslash. *)
Definition dquote : char := 34.
Definition backslash : char := 92.

(** A float is kept as the literal it was read from: its value is an IEEE
    double, which only matters through [str()], see [repr_float] and
    [PyRuntime]. *)
Inductive pyfloat :=
| FNaN
| FInf
| FNegInf
| FLit (lexeme : str).

#[warnings="-register-all"]
Inductive pyval :=
| PyNone
| PyBool (b : bool)
| PyInt (z : Z)
| PyFloat (f : pyfloat)
| PyStr (s : str)
| PyList (l : list pyval)
| PyDict (items : list (str * pyval)).

(** *** The decoder ([json.decoder], [json.scanner]) *)

(** JSON whitespace: space, tab, line feed, carriage return. *)
Definition is_json_ws (c : char) : bool :=
  (c =? 32) || (c =? 9) || (c =? 10) || (c =? 13).

Fixpoint skip_ws (s : str) : str :=
  match s with
  | c :: s' => if is_json_ws c then skip_ws s' else s
  | [] => []
  end.

Definition isdigit (c : char) : bool := (48 <=? c) && (c <=? 57).

Definition hexval (c : char) : option N :=
  if isdigit c then Some (c - 48)
  else if (97 <=? c) && (c <=? 102) then Some (c - 87)
  else if (65 <=? c) && (c <=? 70) then Some (c - 55)
  else None.

Definition hex4 (a b c d : char) : option N :=
  match hexval a, hexval b, hexval c, hexval d with
  | Some x, Some y, Some z, Some w => Some (((x * 16 + y) * 16 + z) * 16 + w)
  | _, _, _, _ => None
  end.

Definition is_high_surrogate (u : N) : bool := (55296 <=? u) && (u <=? 56319).
Definition is_low_surrogate (u : N) : bool := (56320 <=? u) && (u <=? 57343).
Definition join_surrogates (hi lo : N) : N :=
  65536 + N.lor (N.shiftl (hi - 55296) 10) (lo - 56320).

Definition unescape (e : char) : option char :=
  if e =? dquote then Some dquote
  else if e =? backslash then Some backslash
  else if e =? ch "/" then Some (ch "/")
  else if e =? ch "b" then Some 8
  else if e =? ch "f" then Some 12
  else if e =? ch "n" then Some 10
  else if e =? ch "r" then Some 13
  else if e =? ch "t" then Some 9
  else None.

Definition push (c : char) (r : option (str * str)) : option (str * str) :=
  match r with
  | Some (t, rest) => Some (c :: t, rest)
  | None => None
  end.

(** [scanstring] in strict mode, from the character after the opening quote:
    the decoded string and the input after the closing quote. *)
Fixpoint scanstring (s : str) : option (str * str) :=
  match s with
  | [] => None
  | c :: rest =>
    if c =? dquote then Some ([], rest)
    else if c =? backslash then
      match rest with
      | [] => None
      | e :: rest1 =>
        if e =? ch "u" then
          match rest1 with
          | h1 :: h2 :: h3 :: h4 :: rest5 =>
            match hex4 h1 h2 h3 h4 with
            | None => None
            | Some u =>
              let lone := push u (scanstring rest5) in
              if is_high_surrogate u then
                match rest5 with
                | b :: v :: g1 :: g2 :: g3 :: g4 :: rest11 =>
                  if (b =? backslash) && (v =? ch "u") then
                    match hex4 g1 g2 g3 g4 with
                    | Some u2 =>
                      if is_low_surrogate u2
                      then push (join_surrogates u u2) (scanstring rest11)
                      else lone
                    | None => None
                    end
                  else lone
                | _ => lone
                end
              else lone
            end
          | _ => None
          end
        else
          match unescape e with
          | Some c' => push c' (scanstring rest1)
          | None => None
          end
      end
    else if c <? 32 then None
    else push c (scanstring rest)
  end.

Fixpoint span_digits (s : str) : str * str :=
  match s with
  | c :: s' =>
    if isdigit c then let (d, r) := span_digits s' in (c :: d, r) else ([], s)
  | [] => ([], [])
  end.

(** The integer part of a number: an optional minus sign, then either a
    single zero or a non-zero digit followed by any digits. *)
Definition match_integer (s : str) : option (str * str) :=
  let (sign, s1) :=
    match s with
    | c :: s' => if c =? ch "-" then ([c], s') else ([], s)
    | [] => ([], s)
    end in
  match s1 with
  | c :: s2 =>
    if c =? 48 then Some (sign ++ [c], s2)
    else if isdigit c then let (d, r) := span_digits s2 in Some (sign ++ c :: d, r)
    else None
  | [] => None
  end.

(** The optional fraction: a dot followed by at least one digit. *)
Definition match_frac (s : str) : str * str :=
  match s with
  | p :: d :: s' =>
    if (p =? ch ".") && isdigit d
    then let (ds, r) := span_digits s' in (p :: d :: ds, r)
    else ([], s)
  | _ => ([], s)
  end.

(** The optional exponent: e or E, an optional sign, at least one digit;
    when no digit follows, nothing is consumed. *)
Definition match_exp (s : str) : str * str :=
  match s with
  | e :: s1 =>
    if (e =? ch "e") || (e =? ch "E") then
      let (sg, s2) :=
        match s1 with
        | c :: s' => if (c =? ch "+") || (c =? ch "-") then ([c], s') else ([], s1)
        | [] => ([], s1)
        end in
      match span_digits s2 with
      | ([], _) => ([], s)
      | (ds, r) => (e :: sg ++ ds, r)
      end
    else ([], s)
  | [] => ([], s)
  end.

Definition digit_step (acc : N) (d : char) : N := acc * 10 + (d - 48).

Definition nat_of_digits (ds : str) : N := fold_left digit_step ds 0.

(** [int(lexeme)] on the integer part of a number. *)
Definition int_of_lexeme (l : str) : Z :=
  match l with
  | c :: ds => if c =? ch "-" then (- Z.of_N (nat_of_digits ds))%Z
               else Z.of_N (nat_of_digits l)
  | [] => 0%Z
  end.

Definition match_number (s : str) : option (pyval * str) :=
  match match_integer s with
  | None => None
  | Some (i, s1) =>
    let (f, s2) := match_frac s1 in
    let (e, s3) := match_exp s2 in
    match f ++ e with
    | [] => Some (PyInt (int_of_lexeme i), s3)
    | _ => Some (PyFloat (FLit (i ++ f ++ e)), s3)
    end
  end.

(** [dict[key] = val]: a repeated key keeps its place and takes the new value. *)
Fixpoint dict_set (d : list (str * pyval)) (key : str) (val : pyval)
  : list (str * pyval) :=
  match d with
  | [] => [(key, val)]
  | (k, v) :: d' =>
    if str_eqb k key then (k, val) :: d' else (k, v) :: dict_set d' key val
  end.

(** [d.get(key)] *)
Fixpoint dict_get (d : list (str * pyval)) (key : str) : option pyval :=
  match d with
  | [] => None
  | (k, v) :: d' => if str_eqb k key then Some v else dict_get d' key
  end.

Section Scanner.
(** The scanner for one JSON term, used for the elements of containers. *)
Variable scan : str -> option (pyval * str).

(** The loop of [JSONArray]: [s] starts at a term; [n] bounds the number of
    iterations. *)
Fixpoint array_items (n : nat) (s : str) : option (list pyval * str) :=
  match n with
  | O => None
  | S n' =>
    match scan s with
    | None => None
    | Some (v, s1) =>
      match skip_ws s1 with
      | c :: s2 =>
        if c =? ch "]" then Some ([v], s2)
        else if c =? ch "," then
          match array_items n' (skip_ws s2) with
          | Some (vs, r) => Some (v :: vs, r)
          | None => None
          end
        else None
      | [] => None
      end
    end
  end.

(** [JSONArray], from the character after the opening bracket. *)
Definition parse_array (n : nat) (s : str) : option (pyval * str) :=
  match skip_ws s with
  | c :: s1 =>
    if c =? ch "]" then Some (PyList [], s1)
    else match array_items n (c :: s1) with
         | Some (vs, r) => Some (PyList vs, r)
         | None => None
         end
  | [] => None
  end.

(** The loop of [JSONObject]: [s] starts at a key; the pairs read so far
    are in [d]. *)
Fixpoint object_items (n : nat) (d : list (str * pyval)) (s : str)
  : option (list (str * pyval) * str) :=
  match n with
  | O => None
  | S n' =>
    match s with
    | q :: s0 =>
      if q =? dquote then
        match scanstring s0 with
        | None => None
        | Some (key, s1) =>
          match skip_ws s1 with
          | c :: s2 =>
            if c =? ch ":" then
              match scan (skip_ws s2) with
              | None => None
              | Some (v, s3) =>
                let d' := dict_set d key v in
                match skip_ws s3 with
                | e :: s4 =>
                  if e =? ch "}" then Some (d', s4)
                  else if e =? ch "," then object_items n' d' (skip_ws s4)
                  else None
                | [] => None
                end
              end
            else None
          | [] => None
          end
        end
      else None
    | [] => None
    end
  end.

(** [JSONObject], from the character after the opening brace. *)
Definition parse_object (n : nat) (s : str) : option (pyval * str) :=
  match skip_ws s with
  | c :: s1 =>
    if c =? ch "}" then Some (PyDict [], s1)
    else match object_items n [] (c :: s1) with
         | Some (d, r) => Some (PyDict d, r)
         | None => None
         end
  | [] => None
  end.
End Scanner.

(** [scan_once]: one JSON term at the head of [s].  The recursion of the
    scanner is on [fuel], which bounds the nesting of containers and the
    number of elements of each; [scan_once_fuel] shows that any fuel above
    the length of the input gives one and the same result. *)
Fixpoint scan_once (fuel : nat) (s : str) : option (pyval * str) :=
  match fuel with
  | O => None
  | S f =>
    match s with
    | [] => None
    | c :: rest =>
      if c =? dquote then
        match scanstring rest with
        | Some (t, r) => Some (PyStr t, r)
        | None => None
        end
      else if c =? ch "{" then parse_object (scan_once f) f rest
      else if c =? ch "[" then parse_array (scan_once f) f rest
      else if startswith s (lit "null") then Some (PyNone, skipn 4 s)
      else if startswith s (lit "true") then Some (PyBool true, skipn 4 s)
      else if startswith s (lit "false") then Some (PyBool false, skipn 5 s)
      else if startswith s (lit "NaN") then Some (PyFloat FNaN, skipn 3 s)
      else if startswith s (lit "Infinity") then Some (PyFloat FInf, skipn 8 s)
      else if startswith s (lit "-Infinity") then Some (PyFloat FNegInf, skipn 9 s)
      else match_number s
    end
  end.

(** [json.loads(s)]: [None] stands for any exception ([JSONDecodeError]). *)
Definition json_loads (s : str) : option pyval :=
  match scan_once (S (List.length s)) (skip_ws s) with
  | Some (v, rest) =>
    match skip_ws rest with
    | [] => Some v
    | _ :: _ => None
    end
  | None => None
  end.

End PyJson.
Import PyJson.

(* ================================================================== *)
(** ** Interpreter tables the program depends on, [str()] *)
(* ================================================================== *)

(** Three functions of the interpreter are tables or floating-point code
    rather than program logic.  The development is parametric in them. *)
Class PyRuntime : Type := {
  (** [str(float(lexeme))] for the lexeme of a JSON number with a fraction
      or an exponent, when its value is within the range of a double *)
  float_str : str -> str;
  (** [Py_UNICODE_ISPRINTABLE] on code points from 128 on *)
  unicode_isprintable : char -> bool;
  (** [str.lower] on a string that has a non-ASCII character *)
  unicode_lower : str -> str
}.

Section PyBuiltins.
Context {RT : PyRuntime}.

(** [s.lower()]: ASCII strings take the fast path. *)
Definition lower (s : str) : str :=
  if forallb is_ascii s then map ascii_lower s else unicode_lower s.

Definition hexdigit (n : N) : char := if n <? 10 then 48 + n else 87 + n.

Fixpoint hex_fixed (width : nat) (n : N) : str :=
  match width with
  | O => []
  | S w => hex_fixed w (n / 16) ++ [hexdigit (n mod 16)]
  end.

Definition repr_char (quote c : char) : str :=
  if (c =? quote) || (c =? backslash) then [backslash; c]
  else if c =? 9 then lit "\t"
  else if c =? 10 then lit "\n"
  else if c =? 13 then lit "\r"
  else if (c <? 32) || (c =? 127) then lit "\x" ++ hex_fixed 2 c
  else if c <? 127 then [c]
  else if unicode_isprintable c then [c]
  else if c <=? 255 then lit "\x" ++ hex_fixed 2 c
  else if c <=? 65535 then lit "\u" ++ hex_fixed 4 c
  else lit "\U" ++ hex_fixed 8 c.

(** [repr(s)] of a string: single quotes unless the string has a single
    quote and no double quote. *)
Definition repr_str (s : str) : str :=
  let quote :=
    if existsb (N.eqb (ch "'")) s && negb (existsb (N.eqb dquote) s)
    then dquote else ch "'" in
  quote :: flat_map (repr_char quote) s ++ [quote].

(** The exponent of a float lexeme, from the characters after the [e]. *)
Definition exp_of_lexeme (ex : str) : Z :=
  match ex with
  | c :: ds => if c =? ch "+" then Z.of_N (nat_of_digits ds)
               else int_of_lexeme ex
  | [] => 0%Z
  end.

(** The magnitude of a float lexeme, read exactly: the natural number [m]
    and the integer [e] such that the magnitude is [m * 10 ^ e]. *)
Definition float_parts (l : str) : N * Z :=
  match match_integer l with
  | None => (0, 0%Z)
  | Some (i, s1) =>
    let (f, s2) := match_frac s1 in
    let (e, _) := match_exp s2 in
    let int_digits := if startswith i (lit "-") then tl i else i in
    let frac_digits := tl f in
    (nat_of_digits (int_digits ++ frac_digits),
     (exp_of_lexeme (tl e) - Z.of_nat (List.length frac_digits))%Z)
  end.

(** Half-way between the largest double, [2^1024 - 2^971], and [2^1024]:
    [float] rounds to nearest, ties to even, so it reads a magnitude from
    here on as an infinity. *)
Definition overflow_threshold : Z := (2 ^ 1024 - 2 ^ 970)%Z.

Definition overflows (l : str) : bool :=
  let (m, e) := float_parts l in
  if (0 <=? e)%Z then (overflow_threshold <=? Z.of_N m * 10 ^ e)%Z
  else (overflow_threshold * 10 ^ (- e) <=? Z.of_N m)%Z.

(** [repr] of a float: the three values that are not finite have names,
    among them the value of a lexeme beyond the range of a double. *)
Definition repr_float (f : pyfloat) : str :=
  match f with
  | FNaN => lit "nan"
  | FInf => lit "inf"
  | FNegInf => lit "-inf"
  | FLit l =>
    if overflows l
    then if startswith l (lit "-") then lit "-inf" else lit "inf"
    else float_str l
  end.

(** [repr(v)] *)
Fixpoint py_repr (v : pyval) : str :=
  match v with
  | PyNone => lit "None"
  | PyBool true => lit "True"
  | PyBool false => lit "False"
  | PyInt z => str_of_Z z
  | PyFloat f => repr_float f
  | PyStr s => repr_str s
  | PyList l => ch "[" :: join (lit ", ") (map py_repr l) ++ [ch "]"]
  | PyDict d =>
    ch "{" :: join (lit ", ")
                (map (fun kv => repr_str (fst kv) ++ lit ": " ++ py_repr (snd kv)) d)
           ++ [ch "}"]
  end.

(** [str(v)]: a string is itself, anything else is its [repr]. *)
Definition py_str (v : pyval) : str :=
  match v with
  | PyStr s => s
  | _ => py_repr v
  end.

End PyBuiltins.

(* ================================================================== *)
(** ** The HTTP client and the effects of the handler *)
(* ================================================================== *)

Module Http.

(** The arguments of [client.post]. *)
Record Request := {
  url : str;
  json_model : str;
  json_prompt : str;
  json_stream : bool;
  timeout : Z
}.

(** What the program reads of an [httpx.Response]: the status code and the
    result of [resp.json()], [None] when that call raises. *)
Record Response := {
  status_code : Z;
  json : option pyval
}.

(** [await client.post(...)] either gives a response or raises (connection
    refused, timeout). *)
Inductive PostResult :=
| Responded (r : Response)
| Unreachable.

Inductive exn :=
| HTTPException (status : Z) (detail : str)
| HTTPError
| JSONDecodeError
| AttributeError.

Inductive outcome (A : Type) :=
| Return (a : A)
| Raise (e : exn).
Arguments Raise {A} e.

(** What the framework can send back: the JSON of a returned value is
    encoded in UTF-8, which fails on a string that holds a surrogate. *)
Class Encodable (A : Type) : Type := encodable : A -> bool.

#[export] Instance Encodable_str : Encodable str := utf8_encodable.

(** The status of the HTTP reply the framework sends for the outcome of a
    handler: 200 for a returned value that it can encode, the status of an
    [HTTPException], and 500 for any other exception, the one raised by
    the encoding of a returned value included. *)
Definition http_status {A} {E : Encodable A} (o : outcome A) : Z :=
  match o with
  | Return a => if encodable a then 200 else 500
  | Raise (HTTPException status _) => status
  | Raise _ => 500
  end.

End Http.
Import Http.

(** The inference server is any function of its own state and the request.
    A computation threads that state and, at its side, the list of the
    exchanges so far: each request posted, with what came back. *)
Section Effects.
Context {World : Type}.
Variable post : World -> Request -> PostResult * World.

Definition Log : Type := list (Request * PostResult).

Definition M (A : Type) : Type :=
  World * Log -> outcome A * (World * Log).

Definition ret {A} (a : A) : M A := fun st => (Return a, st).

Definition raise {A} (e : exn) : M A := fun st => (Raise e, st).

Definition bind {A B} (m : M A) (k : A -> M B) : M B :=
  fun st =>
    match m st with
    | (Return a, st') => k a st'
    | (Raise e, st') => (Raise e, st')
    end.

(** [await client.post(url, json=..., timeout=...)] *)
Definition client_post (r : Request) : M Response :=
  fun '(w, log) =>
    match post w r with
    | (Responded resp, w') => (Return resp, (w', log ++ [(r, Responded resp)]))
    | (Unreachable, w') => (Raise HTTPError, (w', log ++ [(r, Unreachable)]))
    end.

End Effects.

Notation "x <- m ;; k" := (bind m (fun x => k))
  (at level 61, m at next level, right associativity).

(* ================================================================== *)
(** ** [main.py] *)
(* ================================================================== *)

(** [class AnalyzeRequest(BaseModel)]: [text: str],
    [max_summary_words: int = 80]. *)
Record AnalyzeRequest := {
  text : str;
  max_summary_words : Z
}.

(** Building the model from the fields present in the request body: the
    class gives [max_summary_words] the default 80, and declares no
    constraint on either field. *)
Definition AnalyzeRequest_init (text : str) (max_summary_words : option Z)
  : AnalyzeRequest :=
  {| text := text;
     max_summary_words := match max_summary_words with
                          | Some n => n
                          | None => 80%Z
                          end |}.

(** [class AnalyzeResponse(BaseModel)] *)
Record AnalyzeResponse := {
  summary : str;
  keywords : list str;
  sentiment : str
}.

(** The response is encoded when each of its strings is. *)
#[global] Instance Encodable_AnalyzeResponse : Encodable AnalyzeResponse :=
  fun r =>
    utf8_encodable (summary r)
    && forallb utf8_encodable (keywords r)
    && utf8_encodable (sentiment r).

Definition nl : str := [10].

Definition ollama_url : str := lit "http://localhost:11434/api/generate".
Definition default_model : str := lit "llama3".

(** The request [call_ollama] posts for a prompt. *)
Definition generate_request (prompt model : str) : Request :=
  {| url := ollama_url;
     json_model := model;
     json_prompt := prompt;
     json_stream := false;
     timeout := 120 |}.

Definition summary_prompt (req : AnalyzeRequest) : str :=
  lit "Summarize the following text in no more than "
  ++ str_of_Z (max_summary_words req) ++ lit " words. "
  ++ lit "Use plain English." ++ nl ++ nl
  ++ lit "TEXT:" ++ nl ++ text req.

Definition keywords_prompt (req : AnalyzeRequest) : str :=
  lit "Extract 5-10 important keywords or key phrases from the text below. "
  ++ lit "Return ONLY a JSON array of strings, nothing else." ++ nl ++ nl
  ++ lit "TEXT:" ++ nl ++ text req.

Definition sentiment_prompt (req : AnalyzeRequest) : str :=
  lit "Decide whether the sentiment of the following text is positive, "
  ++ lit "neutral, or negative. Answer with ONE WORD: positive, neutral, or negative."
  ++ nl ++ nl
  ++ lit "TEXT:" ++ nl ++ text req.

Section Program.
Context {RT : PyRuntime}.

(** The [except] branch of the keywords step:
    [[k.strip() for k in keywords_raw.split(",") if k.strip()]]. *)
Definition comma_fallback (keywords_raw : str) : list str :=
  flat_map (fun k => match strip k with
                     | [] => []
                     | _ :: _ => [strip k]
                     end)
           (split (ch ",") keywords_raw).

(** The keywords step of [analyze], from the raw answer: the [try] block
    decodes the answer, raises [ValueError] unless it is a list, and maps
    [str] over the elements; any exception leads to the fallback. *)
Definition parseKeywords (keywords_raw : str) : list str :=
  match json_loads keywords_raw with
  | Some (PyList ks) => map py_str ks
  | Some _ => comma_fallback keywords_raw
  | None => comma_fallback keywords_raw
  end.

(** The sentiment step of [analyze], from the raw answer. *)
Definition normalizeSentiment (raw : str) : str :=
  let sentiment := lower raw in
  if contains sentiment (lit "positive") then lit "positive"
  else if contains sentiment (lit "negative") then lit "negative"
  else lit "neutral".

Context {World : Type}.
Variable post : World -> Request -> PostResult * World.

(** [async def call_ollama(prompt, model="llama3") -> str] *)
Definition call_ollama (prompt model : str) : M str :=
  resp <- client_post post (generate_request prompt model) ;;
  if negb (status_code resp =? 200)%Z
  then raise (HTTPException 500 (lit "Ollama error"))
  else
    match json resp with
    | None => raise JSONDecodeError
    | Some (PyDict data) =>
      match dict_get data (lit "response") with
      | None => ret (strip [])
      | Some (PyStr response) => ret (strip response)
      | Some _ => raise AttributeError
      end
    | Some _ => raise AttributeError
    end.

(** [async def analyze(req: AnalyzeRequest)] *)
Definition analyze (req : AnalyzeRequest) : M AnalyzeResponse :=
  match strip (text req) with
  | [] => raise (HTTPException 400 (lit "Text is empty"))
  | _ :: _ =>
    summary <- call_ollama (summary_prompt req) default_model ;;
    keywords_raw <- call_ollama (keywords_prompt req) default_model ;;
    let keywords := parseKeywords keywords_raw in
    sentiment <- call_ollama (sentiment_prompt req) default_model ;;
    ret {| summary := summary;
           keywords := keywords;
           sentiment := normalizeSentiment sentiment |}
  end.

(** One request served from the server state [w]: the outcome of the
    handler and its exchanges with the inference server, in order. *)
Definition serve (w : World) (req : AnalyzeRequest)
  : outcome AnalyzeResponse * Log :=
  let '(o, (_, log)) := analyze req (w, []) in (o, log).

End Program.

(* ################################################################## *)
(** * Part II: the vocabulary of the statements *)
(* ################################################################## *)

(* ================================================================== *)
(** ** Properties of strings and of runs *)
(* ================================================================== *)

(** [t] is [s] without its leading and trailing whitespace. *)
Definition trimmed_of (s t : str) : Prop :=
  exists l r,
    s = l ++ t ++ r
    /\ forallb isspace l = true /\ forallb isspace r = true
    /\ (forall c, hd_error t = Some c -> isspace c = false)
    /\ (forall c, hd_error (rev t) = Some c -> isspace c = false).

(** [needle] occurs in [s] as a contiguous substring. *)
Definition occurs_in (needle s : str) : Prop :=
  exists pre post, s = pre ++ needle ++ post.

Definition nonempty (s : str) : bool :=
  match s with
  | [] => false
  | _ :: _ => true
  end.

(** A keyword written between double quotes. *)
Definition quoted (k : str) : str := dquote :: k ++ [dquote].

(** The JSON text of an array of strings, as the keywords prompt asks
    for it: the elements between brackets, separated by a comma and a
    space. *)
Definition json_array_text (ks : list str) : str :=
  ch "[" :: join (lit ", ") (map quoted ks) ++ [ch "]"].

(** A character that stands for itself inside a JSON string. *)
Definition plain_char (c : char) : bool :=
  negb (c =? dquote) && negb (c =? backslash) && negb (c <? 32).

Definition plain (k : str) : Prop := forallb plain_char k = true.

Definition labels : list str := [lit "positive"; lit "neutral"; lit "negative"].

(** A scanner that consumes at least one character of its input. *)
Definition shrinking (scan : str -> option (pyval * str)) : Prop :=
  forall t v r, scan t = Some (v, r) -> (List.length r < List.length t)%nat.

(** An inference call is unavailable when the server cannot be reached or
    answers with a status other than 200. *)
Definition inference_failed (res : PostResult) : Prop :=
  match res with
  | Unreachable => True
  | Responded resp => status_code resp <> 200%Z
  end.

(** What [call_ollama] makes of the result of its post. *)
Definition ollama_result (res : PostResult) : outcome str :=
  match res with
  | Unreachable => Raise HTTPError
  | Responded resp =>
    if (status_code resp =? 200)%Z then
      match json resp with
      | None => Raise JSONDecodeError
      | Some (PyDict data) =>
        match dict_get data (lit "response") with
        | None => Return []
        | Some (PyStr response) => Return (strip response)
        | Some _ => Raise AttributeError
        end
      | Some _ => Raise AttributeError
      end
    else Raise (HTTPException 500 (lit "Ollama error"))
  end.

(** The three requests of a run, from the request alone. *)
Definition planned (req : AnalyzeRequest) : list Request :=
  map (fun prompt => generate_request prompt default_model)
      [summary_prompt req; keywords_prompt req; sentiment_prompt req].

(** Posting the requests [qs] one after the other, each to the state the
    server is left in by the one before. *)
Fixpoint replay {World : Type} (post : World -> Request -> PostResult * World)
    (w : World) (qs : list Request) : list (Request * PostResult) :=
  match qs with
  | [] => []
  | q :: qs' => let (res, w') := post w q in (q, res) :: replay post w' qs'
  end.

(** Posting the requests [qs] in the same way, up to and including the
    first one whose answer makes [call_ollama] raise. *)
Fixpoint replay_until_raise {World : Type}
    (post : World -> Request -> PostResult * World)
    (w : World) (qs : list Request) : list (Request * PostResult) :=
  match qs with
  | [] => []
  | q :: qs' =>
    let (res, w') := post w q in
    (q, res) :: match ollama_result res with
                | Return _ => replay_until_raise post w' qs'
                | Raise _ => []
                end
  end.

(** The claim that a valid request always leads to three calls. *)
Definition always_three_calls {RT : PyRuntime} {World : Type}
    (post : World -> Request -> PostResult * World) (w : World)
    (req : AnalyzeRequest) : Prop :=
  strip (text req) <> [] -> List.length (snd (serve post w req)) = 3%nat.

(** The claim that a request is only served with a positive word cap. *)
Definition requires_positive_cap {RT : PyRuntime} {World : Type}
    (post : World -> Request -> PostResult * World) (w : World)
    (req : AnalyzeRequest) : Prop :=
  http_status (fst (serve post w req)) = 200%Z ->
  (0 < max_summary_words req)%Z.




(* ================================================================== *)
(** ** Inputs and stub servers *)
(* ================================================================== *)

(** A runtime to run the program at concrete inputs.  It is used only on
    ASCII texts and on JSON whose floats, if any, are not finite, where
    the result is the same under every runtime, so its three fields are
    never consulted. *)
Definition plain_runtime : PyRuntime :=
  {| float_str := fun lexeme => lexeme;
     unicode_isprintable := fun _ => true;
     unicode_lower := fun s => s |}.

Definition alpha_beta_gamma : list str := [lit "alpha"; lit "beta"; lit "gamma"].

(** A 200 answer whose body is an object with the generated text. *)
Definition ok_response (generated : str) : Response :=
  {| status_code := 200;
     json := Some (PyDict [(lit "response", PyStr generated)]) |}.

(** A stub server that plays a script: each post takes the next result, and
    the server is unreachable once the script is over. *)
Definition script_post (script : list PostResult) (_ : Request)
  : PostResult * list PostResult :=
  match script with
  | res :: script' => (res, script')
  | [] => (Unreachable, [])
  end.

(** The request of the end-to-end example and a stub server that answers
    it with a fixed summary, an array of two keywords and a one-word
    sentiment. *)
Definition policy_request : AnalyzeRequest :=
  AnalyzeRequest_init
    (lit "The new policy was well received by most employees.") None.

Definition policy_summary : str := lit "Employees liked the new policy.".

Definition policy_script : list PostResult :=
  [Responded (ok_response policy_summary);
   Responded (ok_response (json_array_text [lit "policy"; lit "employees"]));
   Responded (ok_response (lit "positive"))].

(** A request with a negative word cap. *)
Definition negative_cap_request : AnalyzeRequest :=
  AnalyzeRequest_init (lit "The new policy was well received.") (Some (-5)%Z).

(** A 200 answer whose body is an object without the field [response]. *)
Definition bare_response : Response :=
  {| status_code := 200; json := Some (PyDict [(lit "done", PyBool true)]) |}.

(** An answer with status 503. *)
Definition busy_response : Response :=
  {| status_code := 503; json := None |}.

(** A request whose text is a space, a tab, a line feed and a no-break
    space. *)
Definition blank_request : AnalyzeRequest :=
  AnalyzeRequest_init [32; 9; 10; 160] None.

(** A server that always answers 200 with an object without [response]. *)
Definition bare_post (w : unit) (_ : Request) : PostResult * unit :=
  (Responded bare_response, w).

(* ================================================================== *)
(** ** The vocabulary of the further properties *)
(* ================================================================== *)

(** A keyword as the fallback gives it: not empty, without whitespace
    around it and without a comma. *)
Definition clean_keyword (k : str) : Prop :=
  k <> [] /\ strip k = k /\ ~ In (ch ",") k.

(** A comma or a whitespace character. *)
Definition blank_or_comma (c : char) : bool := isspace c || (c =? ch ",").

(** The request [call_ollama] posts whatever the prompt: the local
    endpoint, the model llama3, no streaming, a timeout of 120 seconds. *)
Definition fixed_shape (q : Request) : Prop :=
  url q = lit "http://localhost:11434/api/generate"
  /\ json_model q = lit "llama3"
  /\ json_stream q = false
  /\ timeout q = 120%Z.

(** The server answers with status 200 and an object whose field
    [response] is the string [generated]. *)
Definition answers (res : PostResult) (generated : str) : Prop :=
  exists resp data,
    res = Responded resp
    /\ status_code resp = 200%Z
    /\ json resp = Some (PyDict data)
    /\ dict_get data (lit "response") = Some (PyStr generated).

(** The server answers with a status other than 200. *)
Definition refused (res : PostResult) : Prop :=
  exists resp, res = Responded resp /\ status_code resp <> 200%Z.

(** A character of the decimal writing of an integer: a digit or the minus
    sign. *)
Definition decimal_char (c : char) : bool := isdigit c || (c =? ch "-").

(* ################################################################## *)
(** * Part III: proofs *)
(* ################################################################## *)

Unset Implicit Arguments.

(* ================================================================== *)
(** ** The embedding at work *)
(* ================================================================== *)

Lemma str_eqb_eq a b : str_eqb a b = true <-> a = b.
Proof.
  unfold str_eqb. destruct (list_eq_dec N.eq_dec a b); split; congruence.
Qed.

Example split_ex : split 44 (lit "a,,b,") = [lit "a"; []; lit "b"; []].
Proof. reflexivity. Qed.
Example strip_ex : strip (lit "  a b  ") = lit "a b".
Proof. reflexivity. Qed.
Example strz_ex : str_of_Z (-50) = lit "-50" /\ str_of_Z 0 = lit "0" /\ str_of_Z 80 = lit "80".
Proof. repeat split; reflexivity. Qed.

Example loads_ex1 :
  json_loads (lit "[1, -20, 1.5e3, null, true, {}, [[]], NaN]")
  = Some (PyList [PyInt 1; PyInt (-20); PyFloat (FLit (lit "1.5e3")); PyNone;
                  PyBool true; PyDict []; PyList [PyList []]; PyFloat FNaN]).
Proof. vm_compute. reflexivity. Qed.
Example loads_ex2 : json_loads (lit "alpha, beta, , gamma") = None.
Proof. vm_compute. reflexivity. Qed.
Example loads_ex3 : json_loads (lit "[1,]") = None /\ json_loads (lit "[01]") = None
  /\ json_loads (lit " [ ] ") = Some (PyList []) /\ json_loads [] = None
  /\ json_loads (lit "[1] x") = None /\ json_loads (lit "1.") = None.
Proof. vm_compute. repeat split; reflexivity. Qed.

(* ================================================================== *)
(** ** Facts about the string operations *)
(* ================================================================== *)

Lemma lstrip_split s :
  exists l, s = l ++ lstrip s /\ forallb isspace l = true.
Proof.
  induction s as [|c s IH]; simpl.
  - exists []. auto.
  - destruct (isspace c) eqn:E.
    + destruct IH as (l & Hs & Hl). exists (c :: l). simpl.
      rewrite E, Hl. split; [congruence | reflexivity].
    + exists []. auto.
Qed.

Lemma lstrip_head s c : hd_error (lstrip s) = Some c -> isspace c = false.
Proof.
  induction s as [|a s IH]; simpl; [discriminate|].
  destruct (isspace a) eqn:E; [exact IH|].
  simpl. intros [= <-]. exact E.
Qed.

Lemma lstrip_nil s : lstrip s = [] <-> forallb isspace s = true.
Proof.
  induction s as [|a s IH]; simpl; [tauto|].
  destruct (isspace a); simpl; [exact IH|]. split; discriminate.
Qed.

Lemma forallb_rev {A} (f : A -> bool) l : forallb f (rev l) = forallb f l.
Proof.
  induction l as [|a l IH]; simpl; [reflexivity|].
  rewrite forallb_app, IH. simpl. rewrite andb_true_r. apply andb_comm.
Qed.

(** The empty result of [strip] characterises the strings [analyze]
    rejects. *)
Lemma strip_nil s : strip s = [] <-> forallb isspace s = true.
Proof.
  unfold strip, rstrip. split.
  - intros H. apply (f_equal (@rev _)) in H. rewrite rev_involutive in H.
    simpl in H. apply lstrip_nil in H. rewrite forallb_rev in H.
    destruct (lstrip_split s) as (l & Hs & Hl).
    rewrite Hs, forallb_app, Hl, H. reflexivity.
  - intros H. apply lstrip_nil in H. rewrite H. reflexivity.
Qed.

Lemma strip_trimmed s : trimmed_of s (strip s).
Proof.
  unfold strip, rstrip.
  destruct (lstrip_split s) as (l & Hs & Hl).
  destruct (lstrip_split (rev (lstrip s))) as (r & Hr & Hrs).
  exists l, (rev r). repeat split.
  - rewrite <- rev_app_distr, <- Hr, rev_involutive. exact Hs.
  - exact Hl.
  - now rewrite forallb_rev.
  - intros c Hc. apply (lstrip_head s).
    apply (f_equal (@rev _)) in Hr.
    rewrite rev_involutive, rev_app_distr in Hr. rewrite Hr.
    destruct (rev (lstrip (rev (lstrip s)))) as [|b u]; [discriminate|].
    exact Hc.
  - intros c. rewrite rev_involutive. apply lstrip_head.
Qed.

Lemma startswith_spec s p :
  startswith s p = true <-> exists post, s = p ++ post.
Proof.
  revert s. induction p as [|a p IH]; intros s; simpl.
  - split; [intros _; now exists s | reflexivity].
  - destruct s as [|c s]; simpl.
    + split; [discriminate | intros (post & H); discriminate].
    + rewrite andb_true_iff, N.eqb_eq, IH. split.
      * intros (-> & post & ->). now exists post.
      * intros (post & [= -> ->]). split; [reflexivity | now exists post].
Qed.

Lemma contains_unfold s needle :
  contains s needle =
  startswith s needle
  || match s with [] => false | _ :: s' => contains s' needle end.
Proof. destruct s; reflexivity. Qed.

(** The [in] operator on strings is the substring test. *)
Lemma contains_spec s needle :
  contains s needle = true <-> occurs_in needle s.
Proof.
  unfold occurs_in. split.
  - induction s as [|c s IH]; rewrite contains_unfold, orb_true_iff.
    + intros [H | H]; [|discriminate].
      apply startswith_spec in H as (post & H). now exists [], post.
    + intros [H | H].
      * apply startswith_spec in H as (post & H). now exists [], post.
      * destruct (IH H) as (pre & post & ->). now exists (c :: pre), post.
  - intros (pre & post & ->). induction pre as [|c pre IH].
    + rewrite contains_unfold, orb_true_iff. left.
      apply startswith_spec. now exists post.
    + simpl app. rewrite contains_unfold, orb_true_iff. now right.
Qed.

Lemma split_nonempty sep s : split sep s <> [].
Proof.
  destruct s as [|c s]; simpl; [discriminate|].
  destruct (c =? sep); [discriminate|].
  destruct (split sep s); discriminate.
Qed.

(** Joining the pieces with the separator gives the string back. *)
Lemma join_split sep s : join [sep] (split sep s) = s.
Proof.
  induction s as [|c s IH]; [reflexivity|].
  simpl split. destruct (N.eqb_spec c sep) as [->|Hne].
  - pose proof (split_nonempty sep s) as Hn.
    destruct (split sep s) as [|p ps]; [contradiction|].
    simpl. simpl in IH. now rewrite IH.
  - pose proof (split_nonempty sep s) as Hn.
    destruct (split sep s) as [|p ps]; [contradiction|].
    destruct ps as [|q ps]; simpl in *; now rewrite <- IH.
Qed.

(** No piece holds the separator. *)
Lemma split_no_sep sep s : Forall (fun p => ~ In sep p) (split sep s).
Proof.
  induction s as [|c s IH]; simpl.
  - constructor; [intros [] | constructor].
  - destruct (N.eqb_spec c sep) as [->|Hne].
    + constructor; [intros [] | exact IH].
    + destruct (split sep s) as [|p ps].
      * constructor; [|constructor]. intros [H | []]. congruence.
      * inversion IH as [|? ? Hp Hps]; subst. constructor; [|exact Hps].
        intros [H | H]; [congruence | contradiction].
Qed.

(* ================================================================== *)
(** ** The decimal writing of integers *)
(* ================================================================== *)

Lemma fold_digits_acc d : forall acc : positive,
  fold_left digit_step (lit (NilEmpty.string_of_uint d)) (N.pos acc)
  = N.pos (Pos.of_uint_acc d acc).
Proof.
  induction d; intros acc; cbn [NilEmpty.string_of_uint lit list_ascii_of_string map fold_left Pos.of_uint_acc];
    [reflexivity | rewrite <- IHd; f_equal; unfold digit_step; cbn [N_of_ascii N_of_digits]; lia ..].
Qed.

Lemma fold_digits d :
  fold_left digit_step (lit (NilEmpty.string_of_uint d)) 0 = Pos.of_uint d.
Proof.
  induction d; cbn [NilEmpty.string_of_uint lit list_ascii_of_string map fold_left Pos.of_uint];
    [reflexivity | exact IHd | rewrite <- fold_digits_acc; reflexivity ..].
Qed.

Lemma uint_head_not_minus d :
  d <> Decimal.Nil ->
  exists c ds, lit (NilEmpty.string_of_uint d) = c :: ds /\ (c =? ch "-") = false.
Proof.
  destruct d; intros H; [contradiction | eexists; eexists; split; reflexivity ..].
Qed.

(** Reading the decimal writing of an integer gives the integer back. *)
Lemma int_of_lexeme_str_of_Z z : int_of_lexeme (str_of_Z z) = z.
Proof.
  unfold str_of_Z. destruct z as [|p|p]; [reflexivity | |].
  - cbn [Z.to_int NilZero.string_of_int]. unfold NilZero.string_of_uint.
    pose proof (DecimalPos.Unsigned.to_uint_nonnil p) as Hn.
    pose proof (DecimalPos.Unsigned.of_to p) as Hp.
    destruct (uint_head_not_minus _ Hn) as (c & ds & E & Hc).
    replace (lit match Pos.to_uint p with
                 | Decimal.Nil => "0"%string
                 | _ => NilEmpty.string_of_uint (Pos.to_uint p)
                 end)
      with (lit (NilEmpty.string_of_uint (Pos.to_uint p)))
      by (destruct (Pos.to_uint p); [contradiction | reflexivity ..]).
    unfold int_of_lexeme. rewrite E, Hc, <- E. unfold nat_of_digits. rewrite fold_digits, Hp.
    reflexivity.
  - cbn [Z.to_int NilZero.string_of_int]. unfold NilZero.string_of_uint.
    pose proof (DecimalPos.Unsigned.to_uint_nonnil p) as Hn.
    pose proof (DecimalPos.Unsigned.of_to p) as Hp.
    replace (lit (String "-" match Pos.to_uint p with
                 | Decimal.Nil => "0"%string
                 | _ => NilEmpty.string_of_uint (Pos.to_uint p)
                 end))
      with (ch "-" :: lit (NilEmpty.string_of_uint (Pos.to_uint p)))
      by (destruct (Pos.to_uint p); [contradiction | reflexivity ..]).
    unfold int_of_lexeme. change (ch "-" =? ch "-") with true. cbv iota.
    unfold nat_of_digits. rewrite fold_digits, Hp. reflexivity.
Qed.

Lemma uint_decimal_chars d :
  forallb decimal_char (lit (NilEmpty.string_of_uint d)) = true.
Proof. induction d; simpl; auto. Qed.

Lemma str_of_Z_decimal_chars z : forallb decimal_char (str_of_Z z) = true.
Proof.
  unfold str_of_Z. destruct z as [|p|p]; [reflexivity | |];
    cbn [Z.to_int NilZero.string_of_int]; unfold NilZero.string_of_uint.
  - destruct (Pos.to_uint p) eqn:E; try reflexivity;
      rewrite <- E; apply uint_decimal_chars.
  - change (lit (String "-" ?s)) with (ch "-" :: lit s). cbn [forallb].
    change (decimal_char (ch "-")) with true. cbn [andb].
    destruct (Pos.to_uint p) eqn:E; try reflexivity;
      rewrite <- E; apply uint_decimal_chars.
Qed.

(* ================================================================== *)
(** ** The fuel of the decoder *)
(* ================================================================== *)

Section Fuel.

(** [lia] after the lengths are written over one type of lists. *)
Ltac len := unfold str, char in *; cbn [List.length] in *; lia.

Lemma skip_ws_length s : (List.length (skip_ws s) <= List.length s)%nat.
Proof.
  induction s as [|c s IH]; simpl; [len|].
  destruct (is_json_ws c); simpl; len.
Qed.

Lemma push_some c x t r :
  push c x = Some (t, r) -> exists t', x = Some (t', r).
Proof.
  destruct x as [[t' r']|]; simpl; [|discriminate].
  intros [= _ <-]. now exists t'.
Qed.

Lemma scanstring_shrinks n : forall s t r,
  (List.length s <= n)%nat ->
  scanstring s = Some (t, r) -> (List.length r < List.length s)%nat.
Proof.
  induction n as [|n IH]; intros s t r Hn H.
  - destruct s; [discriminate | simpl in Hn; len].
  - assert (Hpush : forall c x t0 r0,
               (List.length x < List.length s)%nat ->
               push c (scanstring x) = Some (t0, r0) ->
               (List.length r0 < List.length s)%nat).
    { intros c x t0 r0 Hx Hp. apply push_some in Hp as (t' & Hp).
      apply IH in Hp; len. }
    destruct s as [|c rest]; [discriminate|]. cbn [scanstring] in H.
    destruct (c =? dquote); [injection H as _ <-; simpl; len|].
    destruct (c =? backslash).
    2:{ destruct (c <? 32); [discriminate|].
        apply Hpush in H; [exact H | simpl; len]. }
    destruct rest as [|e rest1]; [discriminate|].
    destruct (e =? ch "u").
    2:{ destruct (unescape e); [|discriminate].
        apply Hpush in H; [exact H | simpl; len]. }
    destruct rest1 as [|h1 [|h2 [|h3 [|h4 rest5]]]]; try discriminate.
    destruct (hex4 h1 h2 h3 h4) as [u|]; [|discriminate]. cbv zeta in H.
    assert (Hlone : forall t0 r0, push u (scanstring rest5) = Some (t0, r0) ->
                            (List.length r0 < List.length (c :: e :: h1 :: h2 :: h3 :: h4 :: rest5))%nat).
    { intros t0 r0 Hp. apply Hpush in Hp; [exact Hp | simpl; len]. }
    destruct (is_high_surrogate u); [|now apply Hlone in H].
    destruct rest5 as [|b [|v [|g1 [|g2 [|g3 [|g4 rest11]]]]]];
      try (now apply Hlone in H).
    destruct ((b =? backslash) && (v =? ch "u")); [|now apply Hlone in H].
    destruct (hex4 g1 g2 g3 g4) as [u2|]; [|discriminate].
    destruct (is_low_surrogate u2); [|now apply Hlone in H].
    apply Hpush in H; [exact H | simpl; len].
Qed.

Lemma span_digits_length s :
  (List.length (snd (span_digits s)) <= List.length s)%nat.
Proof.
  induction s as [|c s IH]; simpl; [len|].
  destruct (isdigit c); [|simpl; len].
  destruct (span_digits s); simpl in *. len.
Qed.

Lemma match_integer_shrinks s i r :
  match_integer s = Some (i, r) -> (List.length r < List.length s)%nat.
Proof.
  unfold match_integer.
  assert (H : forall sign s1, (List.length s1 <= List.length s)%nat ->
      match s1 with
      | c :: s2 =>
        if c =? 48 then Some (sign ++ [c], s2)
        else if isdigit c
             then let (d, r0) := span_digits s2 in Some (sign ++ c :: d, r0)
             else None
      | [] => None
      end = Some (i, r) -> (List.length r < List.length s)%nat).
  { intros sign [|c s2] Hl; [discriminate|].
    destruct (c =? 48); [intros [= _ <-]; len|].
    destruct (isdigit c); [|discriminate].
    pose proof (span_digits_length s2) as Hd.
    destruct (span_digits s2) as [d r0]. simpl in Hd. intros [= _ <-]. len. }
  destruct s as [|c s']; [discriminate|].
  destruct (c =? ch "-"); intros Hm;
    [apply (H [c] s') | apply (H [] (c :: s'))]; solve [len | exact Hm].
Qed.

Lemma match_frac_length s : (List.length (snd (match_frac s)) <= List.length s)%nat.
Proof.
  unfold match_frac. destruct s as [|p [|d s']]; try (simpl; len).
  destruct ((p =? ch ".") && isdigit d); [|simpl; len].
  pose proof (span_digits_length s') as Hd.
  destruct (span_digits s'); simpl in *. len.
Qed.

Lemma match_exp_length s : (List.length (snd (match_exp s)) <= List.length s)%nat.
Proof.
  unfold match_exp. destruct s as [|e s1]; [simpl; len|].
  destruct ((e =? ch "e") || (e =? ch "E")); [|simpl; len].
  destruct s1 as [|c s'].
  - simpl. len.
  - destruct ((c =? ch "+") || (c =? ch "-")).
    + pose proof (span_digits_length s') as Hd.
      destruct (span_digits s') as [[|x ds] r]; simpl in *; len.
    + pose proof (span_digits_length (c :: s')) as Hd.
      destruct (span_digits (c :: s')) as [[|x ds] r]; simpl in *; len.
Qed.

Lemma match_number_shrinks s v r :
  match_number s = Some (v, r) -> (List.length r < List.length s)%nat.
Proof.
  unfold match_number.
  destruct (match_integer s) as [[i s1]|] eqn:Ei; [|discriminate].
  apply match_integer_shrinks in Ei.
  pose proof (match_frac_length s1) as Hf.
  destruct (match_frac s1) as [f s2].
  pose proof (match_exp_length s2) as He.
  destruct (match_exp s2) as [e s3]. simpl in *.
  destruct (f ++ e); intros [= _ <-]; len.
Qed.

Lemma array_items_shrinks scan n : forall s vs r,
  shrinking scan ->
  array_items scan n s = Some (vs, r) -> (List.length r < List.length s)%nat.
Proof.
  induction n as [|n IH]; intros s vs r Hs H; [discriminate|].
  cbn [array_items] in H.
  destruct (scan s) as [[v s1]|] eqn:E; [|discriminate].
  apply Hs in E. pose proof (skip_ws_length s1) as H1.
  destruct (skip_ws s1) as [|c s2]; [discriminate|].
  destruct (c =? ch "]"); [injection H as _ <-; len|].
  destruct (c =? ch ","); [|discriminate].
  destruct (array_items scan n (skip_ws s2)) as [[vs' r']|] eqn:E2;
    [|discriminate].
  injection H as _ <-. apply IH in E2; [|exact Hs].
  pose proof (skip_ws_length s2). len.
Qed.

Lemma object_items_shrinks scan n : forall d s d' r,
  shrinking scan ->
  object_items scan n d s = Some (d', r) ->
  (List.length r < List.length s)%nat.
Proof.
  induction n as [|n IH]; intros d s d' r Hs H; [discriminate|].
  cbn [object_items] in H.
  destruct s as [|q s0]; [discriminate|].
  destruct (q =? dquote); [|discriminate].
  destruct (scanstring s0) as [[key s1]|] eqn:Ek; [|discriminate].
  apply (scanstring_shrinks (List.length s0)) in Ek; [|lia].
  pose proof (skip_ws_length s1) as H1.
  destruct (skip_ws s1) as [|c s2]; [discriminate|].
  destruct (c =? ch ":"); [|discriminate].
  pose proof (skip_ws_length s2) as H2.
  destruct (scan (skip_ws s2)) as [[v s3]|] eqn:E; [|discriminate].
  apply Hs in E. cbv zeta in H. pose proof (skip_ws_length s3) as H3.
  destruct (skip_ws s3) as [|e s4]; [discriminate|].
  destruct (e =? ch "}"); [injection H as _ <-; len|].
  destruct (e =? ch ","); [|discriminate].
  apply IH in H; [|exact Hs]. pose proof (skip_ws_length s4). len.
Qed.

Lemma skipn_shrinks k (s : str) :
  (0 < k)%nat -> s <> [] -> (List.length (skipn k s) < List.length s)%nat.
Proof.
  intros Hk Hs. rewrite length_skipn. destruct s; [congruence|]. len.
Qed.

Lemma scan_once_shrinks f : shrinking (scan_once f).
Proof.
  induction f as [|f IH]; intros s v r H; [discriminate|].
  cbn [scan_once] in H. destruct s as [|c rest]; [discriminate|].
  destruct (c =? dquote).
  { destruct (scanstring rest) as [[t r']|] eqn:E; [|discriminate].
    injection H as _ <-.
    apply (scanstring_shrinks (List.length rest)) in E; len. }
  destruct (c =? ch "{").
  { unfold parse_object in H. pose proof (skip_ws_length rest) as Hw.
    destruct (skip_ws rest) as [|c' s1]; [discriminate|].
    destruct (c' =? ch "}"); [injection H as _ <-; len|].
    destruct (object_items (scan_once f) f [] (c' :: s1)) as [[d r']|] eqn:E;
      [|discriminate].
    injection H as _ <-. apply object_items_shrinks in E; [len | exact IH]. }
  destruct (c =? ch "[").
  { unfold parse_array in H. pose proof (skip_ws_length rest) as Hw.
    destruct (skip_ws rest) as [|c' s1]; [discriminate|].
    destruct (c' =? ch "]"); [injection H as _ <-; len|].
    destruct (array_items (scan_once f) f (c' :: s1)) as [[vs r']|] eqn:E;
      [|discriminate].
    injection H as _ <-. apply array_items_shrinks in E; [len | exact IH]. }
  repeat match type of H with
         | (if ?b then Some (_, skipn ?k ?s) else _) = _ =>
           destruct b;
             [injection H as _ <-; apply (skipn_shrinks k s);
              [lia | discriminate]|]
         end.
  now apply match_number_shrinks in H.
Qed.

(** The loops give the same result for two scanners that agree on the
    inputs no longer than [s] and for any two bounds from the length of [s]
    on. *)
Lemma array_items_fuel scan1 scan2 n1 : forall n2 s,
  shrinking scan1 ->
  (forall t, (List.length t <= List.length s)%nat -> scan1 t = scan2 t) ->
  (List.length s <= n1)%nat -> (List.length s <= n2)%nat ->
  array_items scan1 n1 s = array_items scan2 n2 s.
Proof.
  induction n1 as [|n1 IH]; intros n2 s Hs Ha H1 H2.
  - destruct s; [|simpl in H1; lia].
    destruct n2; [reflexivity|]. cbn [array_items].
    rewrite <- Ha by lia.
    destruct (scan1 []) as [[v r]|] eqn:E; [|reflexivity].
    apply Hs in E. simpl in E. lia.
  - destruct n2 as [|n2].
    + destruct s; [|simpl in H2; lia]. cbn [array_items].
      destruct (scan1 []) as [[v r]|] eqn:E; [|reflexivity].
      apply Hs in E. simpl in E. lia.
    + cbn [array_items]. rewrite <- Ha by lia.
      destruct (scan1 s) as [[v s1]|] eqn:E; [|reflexivity].
      apply Hs in E. pose proof (skip_ws_length s1) as Hw.
      destruct (skip_ws s1) as [|c s2]; [reflexivity|].
      destruct (c =? ch "]"); [reflexivity|].
      destruct (c =? ch ","); [|reflexivity].
      pose proof (skip_ws_length s2) as Hw2.
      rewrite (IH n2 (skip_ws s2)); [reflexivity | exact Hs | | len | len].
      intros t Ht. apply Ha. len.
Qed.

Lemma object_items_fuel scan1 scan2 n1 : forall n2 d s,
  shrinking scan1 ->
  (forall t, (List.length t <= List.length s)%nat -> scan1 t = scan2 t) ->
  (List.length s <= n1)%nat -> (List.length s <= n2)%nat ->
  object_items scan1 n1 d s = object_items scan2 n2 d s.
Proof.
  induction n1 as [|n1 IH]; intros n2 d s Hs Ha H1 H2.
  - destruct s; [|simpl in H1; lia]. destruct n2; reflexivity.
  - destruct n2 as [|n2].
    + destruct s; [reflexivity | simpl in H2; lia].
    + cbn [object_items]. destruct s as [|q s0]; [reflexivity|].
      destruct (q =? dquote); [|reflexivity].
      destruct (scanstring s0) as [[key s1]|] eqn:Ek; [|reflexivity].
      apply (scanstring_shrinks (List.length s0)) in Ek; [|lia].
      pose proof (skip_ws_length s1) as Hw1.
      destruct (skip_ws s1) as [|c s2]; [reflexivity|].
      destruct (c =? ch ":"); [|reflexivity].
      pose proof (skip_ws_length s2) as Hw2.
      rewrite <- Ha by len.
      destruct (scan1 (skip_ws s2)) as [[v s3]|] eqn:E; [|reflexivity].
      apply Hs in E. cbv zeta. pose proof (skip_ws_length s3) as Hw3.
      destruct (skip_ws s3) as [|e s4]; [reflexivity|].
      destruct (e =? ch "}"); [reflexivity|].
      destruct (e =? ch ","); [|reflexivity].
      pose proof (skip_ws_length s4) as Hw4.
      apply IH; [exact Hs | | len | len].
      intros t Ht. apply Ha. len.
Qed.

(** Fuel above the length of the input is enough: more of it never changes
    what the scanner gives. *)
Theorem scan_once_fuel f1 : forall f2 s,
  (List.length s < f1)%nat -> (List.length s < f2)%nat ->
  scan_once f1 s = scan_once f2 s.
Proof.
  induction f1 as [|f1 IH]; intros f2 s H1 H2; [lia|].
  destruct f2 as [|f2]; [lia|]. cbn [scan_once].
  destruct s as [|c rest]; [reflexivity|].
  destruct (c =? dquote); [reflexivity|].
  pose proof (skip_ws_length rest) as Hw.
  destruct (c =? ch "{").
  { unfold parse_object. destruct (skip_ws rest) as [|c' s1]; [reflexivity|].
    destruct (c' =? ch "}"); [reflexivity|].
    rewrite (object_items_fuel (scan_once f1) (scan_once f2) f1 f2 [] (c' :: s1));
      [reflexivity | apply scan_once_shrinks | | len | len].
    intros t Ht. apply IH; len. }
  destruct (c =? ch "[").
  { unfold parse_array. destruct (skip_ws rest) as [|c' s1]; [reflexivity|].
    destruct (c' =? ch "]"); [reflexivity|].
    rewrite (array_items_fuel (scan_once f1) (scan_once f2) f1 f2 (c' :: s1));
      [reflexivity | apply scan_once_shrinks | | len | len].
    intros t Ht. apply IH; len. }
  reflexivity.
Qed.

(** [json.loads] does not depend on the fuel it gives the scanner. *)
Corollary json_loads_fuel f s :
  (List.length s < f)%nat ->
  json_loads s = match scan_once f (skip_ws s) with
                 | Some (v, rest) =>
                   match skip_ws rest with
                   | [] => Some v
                   | _ :: _ => None
                   end
                 | None => None
                 end.
Proof.
  intros H. unfold json_loads. pose proof (skip_ws_length s) as Hw.
  rewrite (scan_once_fuel (S (List.length s)) f (skip_ws s)) by lia.
  reflexivity.
Qed.
End Fuel.

(* ================================================================== *)
(** ** Decoding the text of an array of strings *)
(* ================================================================== *)

Lemma scanstring_plain k rest :
  plain k -> scanstring (k ++ dquote :: rest) = Some (k, rest).
Proof.
  unfold plain. induction k as [|c k IH]; intros H.
  - reflexivity.
  - simpl in H. apply andb_true_iff in H as [Hc Hk].
    unfold plain_char in Hc.
    apply andb_true_iff in Hc as [Hc H32].
    apply andb_true_iff in Hc as [Hq Hb].
    apply negb_true_iff in Hq, Hb, H32.
    simpl app. cbn [scanstring]. rewrite Hq, Hb, H32, (IH Hk). reflexivity.
Qed.

Lemma scan_once_quoted d k rest :
  plain k -> scan_once (S d) (quoted k ++ rest) = Some (PyStr k, rest).
Proof.
  intros H. unfold quoted. simpl app. cbn [scan_once].
  change (dquote =? dquote) with true. cbv iota.
  rewrite <- app_assoc. simpl app. now rewrite scanstring_plain.
Qed.

Lemma array_items_quoted d ks : forall n k rest,
  Forall plain (k :: ks) ->
  (List.length ks < n)%nat ->
  array_items (scan_once (S d)) n
              (join (lit ", ") (map quoted (k :: ks)) ++ ch "]" :: rest)
  = Some (map PyStr (k :: ks), rest).
Proof.
  induction ks as [|k' ks IH]; intros n k rest Hp Hn.
  - destruct n as [|n]; [lia|]. inversion Hp as [|? ? Hk _]; subst.
    simpl join. simpl map. cbn [array_items].
    rewrite scan_once_quoted by exact Hk. reflexivity.
  - destruct n as [|n]; [simpl in Hn; lia|].
    inversion Hp as [|? ? Hk Hp']; subst.
    change (join (lit ", ") (map quoted (k :: k' :: ks)))
      with (quoted k ++ lit ", " ++ join (lit ", ") (map quoted (k' :: ks))).
    rewrite <- !app_assoc. cbn [array_items].
    rewrite scan_once_quoted by exact Hk.
    change (lit ", " ++ ?x) with (ch "," :: 32 :: x).
    cbn [skip_ws]. change (is_json_ws (ch ",")) with false. cbv iota.
    change (ch "," =? ch "]") with false.
    change (ch "," =? ch ",") with true. cbv iota.
    change (skip_ws (32 :: ?x)) with (skip_ws x).
    assert (Hs : forall t, skip_ws (join (lit ", ") (map quoted (k' :: ks)) ++ t)
                      = join (lit ", ") (map quoted (k' :: ks)) ++ t).
    { intros t. simpl map. destruct (map quoted ks); reflexivity. }
    rewrite Hs, (IH n k' rest Hp') by (simpl in Hn; lia).
    reflexivity.
Qed.

Lemma join_quoted_length ks :
  (List.length ks <= List.length (join (lit ", ") (map quoted ks)))%nat.
Proof.
  induction ks as [|k ks IH]; [simpl; lia|].
  simpl map. destruct ks as [|k' ks].
  - simpl. lia.
  - change (join (lit ", ") (quoted k :: map quoted (k' :: ks)))
      with (quoted k ++ lit ", " ++ join (lit ", ") (map quoted (k' :: ks))).
    rewrite !length_app. unfold quoted at 1. simpl List.length in *. lia.
Qed.

(** [json.loads] reads the text of an array of plain strings back as the
    list of those strings. *)
Lemma json_loads_array_text ks :
  Forall plain ks ->
  json_loads (json_array_text ks) = Some (PyList (map PyStr ks)).
Proof.
  intros Hp. unfold json_loads, json_array_text.
  change (skip_ws (ch "[" :: ?x)) with (ch "[" :: x).
  cbn [scan_once].
  change (ch "[" =? dquote) with false.
  change (ch "[" =? ch "{") with false.
  change (ch "[" =? ch "[") with true. cbv iota.
  destruct ks as [|k ks].
  - reflexivity.
  - unfold parse_array.
    assert (Hs : skip_ws (join (lit ", ") (map quoted (k :: ks)) ++ [ch "]"])
                 = dquote :: tl (join (lit ", ") (map quoted (k :: ks)) ++ [ch "]"])).
    { simpl map. destruct (map quoted ks); reflexivity. }
    rewrite Hs.
    change (dquote =? ch "]") with false. cbv iota.
    assert (Hj : dquote :: tl (join (lit ", ") (map quoted (k :: ks)) ++ [ch "]"])
                 = join (lit ", ") (map quoted (k :: ks)) ++ [ch "]"]).
    { simpl map. destruct (map quoted ks); reflexivity. }
    rewrite Hj.
    pose proof (join_quoted_length (k :: ks)) as Hl.
    change (List.length (ch "[" :: ?x)) with (S (List.length x)).
    remember (List.length (join (lit ", ") (map quoted (k :: ks)) ++ [ch "]"]))
      as n eqn:En.
    assert (Hn : (List.length ks < n)%nat).
    { rewrite En, length_app. simpl List.length in *. lia. }
    rewrite (array_items_quoted n ks (S n) k [] Hp) by lia.
    reflexivity.
Qed.

(* ================================================================== *)
(** ** The keywords step *)
(* ================================================================== *)

Section Keywords.
Context {RT : PyRuntime}.

(** The comprehension of the fallback trims every piece and keeps those
    that are not empty afterwards. *)
Lemma comma_fallback_filter raw :
  comma_fallback raw = filter nonempty (map strip (split (ch ",") raw)).
Proof.
  unfold comma_fallback.
  induction (split (ch ",") raw) as [|p ps IH]; [reflexivity|].
  simpl. rewrite IH. destruct (strip p); reflexivity.
Qed.

Lemma parseKeywords_not_list raw :
  (forall ks, json_loads raw <> Some (PyList ks)) ->
  parseKeywords raw = comma_fallback raw.
Proof.
  intros H. unfold parseKeywords.
  destruct (json_loads raw) as [[]|]; try reflexivity.
  now contradiction (H l).
Qed.

Lemma parseKeywords_list raw ks :
  json_loads raw = Some (PyList ks) -> parseKeywords raw = map py_str ks.
Proof. intros H. unfold parseKeywords. now rewrite H. Qed.

(** C1. When the raw keywords answer does not decode to a JSON array
    (decoding raises, or gives a value that is not a list), the keywords
    are obtained by cutting the answer at every comma, trimming the
    whitespace around each piece and dropping the pieces that are empty
    once trimmed, in the order of the answer.  In particular
    "alpha, beta, , gamma" gives alpha, beta, gamma. *)
Theorem parseKeywords_fallback :
  (forall raw,
      (forall ks, json_loads raw <> Some (PyList ks)) ->
      exists pieces trimmed,
        join [ch ","] pieces = raw
        /\ Forall (fun p => ~ In (ch ",") p) pieces
        /\ Forall2 trimmed_of pieces trimmed
        /\ parseKeywords raw = filter nonempty trimmed)
  /\ parseKeywords (lit "alpha, beta, , gamma") = alpha_beta_gamma.
Proof.
  split.
  - intros raw H. exists (split (ch ",") raw), (map strip (split (ch ",") raw)).
    split; [apply join_split|]. split; [apply split_no_sep|]. split.
    + induction (split (ch ",") raw); constructor; auto using strip_trimmed.
    + rewrite parseKeywords_not_list by exact H. apply comma_fallback_filter.
  - vm_compute. reflexivity.
Qed.

(** C2. When the raw keywords answer decodes to a JSON array, the keywords
    are the elements of the array, each converted with [str], in the order
    of the array and with repeated elements kept.  The text of an array of
    strings gives those strings back; in particular
    the array of alpha, beta, gamma gives alpha, beta, gamma. *)
Theorem parseKeywords_json_array :
  (forall raw ks,
      json_loads raw = Some (PyList ks) ->
      parseKeywords raw = map py_str ks
      /\ List.length (parseKeywords raw) = List.length ks
      /\ forall i, nth_error (parseKeywords raw) i
                   = option_map py_str (nth_error ks i))
  /\ (forall ks, Forall plain ks -> parseKeywords (json_array_text ks) = ks)
  /\ parseKeywords (json_array_text alpha_beta_gamma) = alpha_beta_gamma
  /\ parseKeywords (json_array_text [lit "tax"; lit "law"; lit "tax"])
     = [lit "tax"; lit "law"; lit "tax"].
Proof.
  split; [|split; [|split]].
  - intros raw ks H. rewrite (@parseKeywords_list raw ks H).
    split; [reflexivity|]. split; [apply length_map|].
    intros i. apply nth_error_map.
  - intros ks Hp.
    rewrite (@parseKeywords_list _ _ (json_loads_array_text ks Hp)), map_map.
    apply map_id.
  - vm_compute. reflexivity.
  - vm_compute. reflexivity.
Qed.


End Keywords.

(* ================================================================== *)
(** ** The sentiment step *)
(* ================================================================== *)

Section Sentiment.
Context {RT : PyRuntime}.

(** C3. The raw sentiment answer is lower-cased; the label is positive
    when "positive" occurs in the lower-cased answer, else negative when
    "negative" occurs in it, else neutral.  So the label is always one of
    positive, neutral, negative.  "Overall the tone is quite POSITIVE and
    upbeat." gives positive and "I cannot determine this." gives
    neutral. *)
Theorem normalizeSentiment_spec :
  (forall raw,
      (occurs_in (lit "positive") (lower raw) ->
       normalizeSentiment raw = lit "positive")
      /\ (~ occurs_in (lit "positive") (lower raw) ->
          occurs_in (lit "negative") (lower raw) ->
          normalizeSentiment raw = lit "negative")
      /\ (~ occurs_in (lit "positive") (lower raw) ->
          ~ occurs_in (lit "negative") (lower raw) ->
          normalizeSentiment raw = lit "neutral")
      /\ In (normalizeSentiment raw) labels)
  /\ (forall raw, forallb is_ascii raw = true -> lower raw = map ascii_lower raw)
  /\ lower (lit "quite POSITIVE") = lit "quite positive"
  /\ normalizeSentiment (lit "Overall the tone is quite POSITIVE and upbeat.")
     = lit "positive"
  /\ normalizeSentiment (lit "I cannot determine this.") = lit "neutral"
  /\ normalizeSentiment (lit "Rather Negative.") = lit "negative"
  /\ normalizeSentiment (lit "negative, not positive") = lit "positive".
Proof.
  split; [|split; [|split; [|split; [|split; [|split]]]]].
  - intros raw. unfold normalizeSentiment. cbv zeta.
    destruct (contains (lower raw) (lit "positive")) eqn:Ep;
      [|destruct (contains (lower raw) (lit "negative")) eqn:En].
    + repeat split; intros; try reflexivity.
      * exfalso. apply H. now apply contains_spec.
      * exfalso. apply H. now apply contains_spec.
      * left. reflexivity.
    + repeat split; intros; try reflexivity.
      * apply contains_spec in H. congruence.
      * exfalso. apply H0. now apply contains_spec.
      * right. right. left. reflexivity.
    + repeat split; intros; try reflexivity.
      * apply contains_spec in H. congruence.
      * apply contains_spec in H0. congruence.
      * right. left. reflexivity.
  - intros raw H. unfold lower. now rewrite H.
  - vm_compute. reflexivity.
  - vm_compute. reflexivity.
  - vm_compute. reflexivity.
  - vm_compute. reflexivity.
  - vm_compute. reflexivity.
Qed.

End Sentiment.

(* ================================================================== *)
(** ** Runs of the handler *)
(* ================================================================== *)

Section Runs.
Context {RT : PyRuntime} {World : Type}.
Variable post : World -> Request -> PostResult * World.

Lemma call_ollama_run prompt model w log :
  call_ollama post prompt model (w, log)
  = (ollama_result (fst (post w (generate_request prompt model))),
     (snd (post w (generate_request prompt model)),
      log ++ [(generate_request prompt model,
               fst (post w (generate_request prompt model)))])).
Proof.
  unfold call_ollama, bind, client_post.
  destruct (post w (generate_request prompt model)) as [[resp|] w']; simpl;
    [|reflexivity].
  destruct (status_code resp =? 200)%Z; simpl; [|reflexivity].
  destruct (json resp) as [[]|]; try reflexivity.
  destruct (dict_get items (lit "response")) as [[]|]; reflexivity.
Qed.

Lemma ollama_result_raise res e :
  ollama_result res = Raise e -> http_status (@Raise AnalyzeResponse e) = 500%Z.
Proof.
  destruct res as [resp|]; simpl; [|intros [= <-]; reflexivity].
  destruct (status_code resp =? 200)%Z; [|intros [= <-]; reflexivity].
  destruct (json resp) as [[]|]; try (intros [= <-]; reflexivity).
  destruct (dict_get items (lit "response")) as [[]|];
    try (intros [= <-]; reflexivity); discriminate.
Qed.

Lemma ollama_result_failed res :
  inference_failed res -> exists e, ollama_result res = Raise e.
Proof.
  destruct res as [resp|]; simpl; [|now exists HTTPError].
  intros H. destruct (Z.eqb_spec (status_code resp) 200); [contradiction|].
  now eexists.
Qed.

Lemma ollama_result_return res t :
  ollama_result res = Return t -> ~ inference_failed res.
Proof.
  intros H F. destruct (ollama_result_failed res F) as (e & He). congruence.
Qed.

(** The run of [analyze], call by call. *)
Lemma serve_run w req :
  serve post w req =
  match strip (text req) with
  | [] => (Raise (HTTPException 400 (lit "Text is empty")), [])
  | _ :: _ =>
    let q1 := generate_request (summary_prompt req) default_model in
    let q2 := generate_request (keywords_prompt req) default_model in
    let q3 := generate_request (sentiment_prompt req) default_model in
    let (r1, w1) := post w q1 in
    match ollama_result r1 with
    | Raise e => (Raise e, [(q1, r1)])
    | Return summary =>
      let (r2, w2) := post w1 q2 in
      match ollama_result r2 with
      | Raise e => (Raise e, [(q1, r1); (q2, r2)])
      | Return keywords_raw =>
        let (r3, w3) := post w2 q3 in
        match ollama_result r3 with
        | Raise e => (Raise e, [(q1, r1); (q2, r2); (q3, r3)])
        | Return sentiment =>
          (Return {| summary := summary;
                     keywords := parseKeywords keywords_raw;
                     sentiment := normalizeSentiment sentiment |},
           [(q1, r1); (q2, r2); (q3, r3)])
        end
      end
    end
  end.
Proof.
  unfold serve, analyze.
  destruct (strip (text req)) as [|c t]; [reflexivity|].
  unfold bind. cbv zeta. rewrite call_ollama_run.
  destruct (post w _) as [r1 w1]. cbn [fst snd app].
  destruct (ollama_result r1) as [summary|e]; [|reflexivity].
  rewrite call_ollama_run.
  destruct (post w1 _) as [r2 w2]. cbn [fst snd app].
  destruct (ollama_result r2) as [keywords_raw|e]; [|reflexivity].
  rewrite call_ollama_run.
  destruct (post w2 _) as [r3 w3]. cbn [fst snd app].
  destruct (ollama_result r3) as [sentiment|e]; reflexivity.
Qed.

Lemma strip_nonempty_iff s :
  strip s <> [] <-> exists c, In c s /\ isspace c = false.
Proof.
  rewrite strip_nil. split.
  - intros H. destruct (forallb isspace s) eqn:E; [congruence|].
    clear H. induction s as [|a s IH]; [discriminate|].
    simpl in E. destruct (isspace a) eqn:Ea.
    + destruct (IH E) as (c & Hc & Hs). exists c. split; [now right | exact Hs].
    + exists a. split; [now left | exact Ea].
  - intros (c & Hc & Hs) H. rewrite forallb_forall in H.
    rewrite (H c Hc) in Hs. discriminate.
Qed.

Lemma serve_valid_status w req :
  strip (text req) <> [] ->
  http_status (fst (serve post w req)) = 200%Z
  \/ http_status (fst (serve post w req)) = 500%Z.
Proof.
  intros Hv. rewrite serve_run.
  destruct (strip (text req)) as [|c t]; [congruence|]. cbv zeta.
  destruct (post w _) as [r1 w1].
  destruct (ollama_result r1) as [s1|e] eqn:E1;
    [|right; exact (ollama_result_raise _ _ E1)].
  destruct (post w1 _) as [r2 w2].
  destruct (ollama_result r2) as [s2|e] eqn:E2;
    [|right; exact (ollama_result_raise _ _ E2)].
  destruct (post w2 _) as [r3 w3].
  destruct (ollama_result r3) as [s3|e] eqn:E3;
    [|right; exact (ollama_result_raise _ _ E3)].
  cbn [fst http_status]. destruct (encodable _); [now left | now right].
Qed.

(** C4. A request whose text is empty or made of whitespace only is
    rejected with the 400 error "Text is empty" and nothing is posted to
    the inference server; a request whose text has a character that is not
    whitespace is never answered with status 400. *)
Theorem analyze_empty_input w req :
  (forallb isspace (text req) = true ->
   serve post w req = (Raise (HTTPException 400 (lit "Text is empty")), [])
   /\ http_status (fst (serve post w req)) = 400%Z)
  /\ ((exists c, In c (text req) /\ isspace c = false) ->
      http_status (fst (serve post w req)) <> 400%Z
      /\ forall detail,
          fst (serve post w req) <> Raise (HTTPException 400 detail)).
Proof.
  split.
  - intros H. apply strip_nil in H. rewrite serve_run, H. now split.
  - intros H. apply strip_nonempty_iff in H.
    assert (Hs : http_status (fst (serve post w req)) <> 400%Z).
    { destruct (serve_valid_status w req H) as [E | E]; rewrite E; discriminate. }
    split; [exact Hs|]. intros detail E. apply Hs. now rewrite E.
Qed.

(** C5. When one of the inference calls of a run is unavailable (no answer,
    or an answer with a status other than 200), the run ends with an
    exception that the framework reports with status 500: no response, so
    no summary, keywords or sentiment, is returned. *)
Theorem no_partial_response w req :
  Exists (fun exchange => inference_failed (snd exchange))
         (snd (serve post w req)) ->
  (exists e, fst (serve post w req) = Raise e)
  /\ (forall r, fst (serve post w req) <> Return r)
  /\ http_status (fst (serve post w req)) = 500%Z.
Proof.
  rewrite serve_run.
  destruct (strip (text req)) as [|c t]; [intros H; inversion H|]. cbv zeta.
  destruct (post w _) as [r1 w1].
  destruct (ollama_result r1) as [s1|e] eqn:E1.
  2:{ intros _. cbn [fst]. rewrite (ollama_result_raise _ _ E1).
      repeat split; [now exists e | discriminate]. }
  destruct (post w1 _) as [r2 w2].
  destruct (ollama_result r2) as [s2|e] eqn:E2.
  2:{ intros _. cbn [fst]. rewrite (ollama_result_raise _ _ E2).
      repeat split; [now exists e | discriminate]. }
  destruct (post w2 _) as [r3 w3].
  destruct (ollama_result r3) as [s3|e] eqn:E3.
  2:{ intros _. cbn [fst]. rewrite (ollama_result_raise _ _ E3).
      repeat split; [now exists e | discriminate]. }
  cbn [snd]. intros H. exfalso.
  apply ollama_result_return in E1, E2, E3.
  repeat match goal with
         | H : Exists _ (_ :: _) |- _ => inversion H; clear H; subst
         | H : Exists _ [] |- _ => inversion H
         end; simpl in *; contradiction.
Qed.

(** C6, as the code has it. For a valid request the handler posts its
    requests one after the other in the order summary, keywords, sentiment,
    each to the server as the one before left it, and it posts the next one
    exactly when the call before returned: its exchanges are those of the
    three requests planned from the request alone, up to and including the
    first whose answer makes [call_ollama] raise.  So there is at least one
    exchange and at most three, every one but the last was available, a
    response is returned exactly when every call returned, and then there
    are three.  Each prompt is an instruction followed by the text of the
    request; none holds an answer of the server.  Against a stub that
    answers with a fixed summary, the array of policy and employees, and
    positive, the response holds exactly these three values after three
    requests. *)
Theorem analyze_calls_in_order :
  (forall prompt model w log,
      fst (call_ollama post prompt model (w, log))
      = ollama_result (fst (post w (generate_request prompt model))))
  /\ (forall w req,
         strip (text req) <> [] ->
         snd (serve post w req) = replay_until_raise post w (planned req)
         /\ (exists n, (1 <= n <= 3)%nat
                       /\ snd (serve post w req)
                          = firstn n (replay post w (planned req)))
         /\ Forall (fun exchange => ~ inference_failed (snd exchange))
                   (removelast (snd (serve post w req)))
         /\ (forall r, fst (serve post w req) = Return r ->
                       snd (serve post w req) = replay post w (planned req))
         /\ ((exists r, fst (serve post w req) = Return r)
             <-> Forall (fun exchange =>
                           exists t, ollama_result (snd exchange) = Return t)
                        (snd (serve post w req)))
         /\ ((exists r, fst (serve post w req) = Return r) ->
             List.length (snd (serve post w req)) = 3%nat))
  /\ (forall req,
         Forall (fun q => exists instruction,
                     json_prompt q = instruction ++ lit "TEXT:" ++ nl ++ text req)
                (planned req))
  /\ serve script_post policy_script policy_request
     = (Return {| summary := policy_summary;
                  keywords := [lit "policy"; lit "employees"];
                  sentiment := lit "positive" |},
        combine (planned policy_request) policy_script).
Proof.
  split; [|split; [|split]].
  - intros prompt model w log. now rewrite call_ollama_run.
  - intros w req Hv. rewrite serve_run.
    destruct (strip (text req)) as [|c t]; [congruence|].
    cbv zeta. cbn [planned map replay replay_until_raise].
    destruct (post w _) as [r1 w1].
    destruct (ollama_result r1) as [s1|e1] eqn:E1.
    2:{ split; [reflexivity|].
        split; [exists 1%nat; split; [lia | reflexivity]|].
        split; [constructor|]. split; [discriminate|].
        split; [|intros (r & H); discriminate].
        split; [intros (r & H); discriminate|].
        intros H. inversion H as [|? ? (t0 & H1) _]; subst.
        cbn [snd] in H1. congruence. }
    pose proof (ollama_result_return _ _ E1) as F1.
    destruct (post w1 _) as [r2 w2].
    destruct (ollama_result r2) as [s2|e2] eqn:E2.
    2:{ split; [reflexivity|].
        split; [exists 2%nat; split; [lia | reflexivity]|].
        split; [repeat constructor; exact F1|]. split; [discriminate|].
        split; [|intros (r & H); discriminate].
        split; [intros (r & H); discriminate|].
        intros H. inversion H as [|? ? _ H']; subst.
        inversion H' as [|? ? (t0 & H2) _]; subst.
        cbn [snd] in H2. congruence. }
    pose proof (ollama_result_return _ _ E2) as F2.
    destruct (post w2 _) as [r3 w3].
    destruct (ollama_result r3) as [s3|e3] eqn:E3.
    + split; [reflexivity|].
      split; [exists 3%nat; split; [lia | reflexivity]|].
      split; [repeat constructor; assumption|]. split; [reflexivity|].
      split; [|reflexivity].
      split; [|intros _; eexists; reflexivity].
      intros _. repeat constructor; cbn [snd]; eauto.
    + split; [reflexivity|].
      split; [exists 3%nat; split; [lia | reflexivity]|].
      split; [repeat constructor; assumption|]. split; [discriminate|].
      split; [|intros (r & H); discriminate].
      split; [intros (r & H); discriminate|].
      intros H. inversion H as [|? ? _ H']; subst.
      inversion H' as [|? ? _ H'']; subst.
      inversion H'' as [|? ? (t0 & H3) _]; subst.
      cbn [snd] in H3. congruence.
  - intros req. unfold planned, summary_prompt, keywords_prompt, sentiment_prompt.
    repeat constructor; cbn [json_prompt generate_request];
      eexists; rewrite ?app_assoc; reflexivity.
  - vm_compute. reflexivity.
Qed.

(** C7, as the code has it. A request built without a word cap has the cap
    80; a cap that is given is taken as it is, whatever integer it is: the
    model declares no bound, and the handler reads the cap only to write
    it, in decimal, in the summary prompt, which is the prompt of the first
    request posted for any valid text. *)
Theorem max_summary_words_cap :
  (forall t, max_summary_words (AnalyzeRequest_init t None) = 80%Z)
  /\ (forall t n, max_summary_words (AnalyzeRequest_init t (Some n)) = n)
  /\ (forall req,
         summary_prompt req
         = lit "Summarize the following text in no more than "
           ++ str_of_Z (max_summary_words req)
           ++ lit " words. Use plain English." ++ nl ++ nl
           ++ lit "TEXT:" ++ nl ++ text req)
  /\ (forall n, int_of_lexeme (str_of_Z n) = n)
  /\ (forall w req,
         strip (text req) <> [] ->
         option_map (fun exchange => json_prompt (fst exchange))
                    (hd_error (snd (serve post w req)))
         = Some (summary_prompt req))
  /\ summary_prompt (AnalyzeRequest_init (lit "Hi.") None)
     = lit "Summarize the following text in no more than 80 words. Use plain English."
       ++ nl ++ nl ++ lit "TEXT:" ++ nl ++ lit "Hi.".
Proof.
  split; [reflexivity|]. split; [reflexivity|]. split.
  { intros req. reflexivity. }
  split; [exact int_of_lexeme_str_of_Z|]. split; [|vm_compute; reflexivity].
  intros w req Hv. rewrite serve_run.
  destruct (strip (text req)) as [|c t]; [congruence|]. cbv zeta.
  destruct (post w _) as [r1 w1].
  destruct (ollama_result r1) as [s1|e]; [|reflexivity].
  destruct (post w1 _) as [r2 w2].
  destruct (ollama_result r2) as [s2|e]; [|reflexivity].
  destruct (post w2 _) as [r3 w3].
  destruct (ollama_result r3) as [s3|e]; reflexivity.
Qed.

(** C8. When the server answers with status 200 and the generated text,
    the client returns that text without its leading and trailing
    whitespace; when it answers with any other status, the client raises
    the 500 error "Ollama error". *)
Theorem call_ollama_status prompt model w log resp w' :
  post w (generate_request prompt model) = (Responded resp, w') ->
  (status_code resp = 200%Z ->
   forall data generated,
     json resp = Some (PyDict data) ->
     dict_get data (lit "response") = Some (PyStr generated) ->
     fst (call_ollama post prompt model (w, log)) = Return (strip generated)
     /\ trimmed_of generated (strip generated))
  /\ (status_code resp <> 200%Z ->
      fst (call_ollama post prompt model (w, log))
      = Raise (HTTPException 500 (lit "Ollama error"))
      /\ http_status (fst (call_ollama post prompt model (w, log))) = 500%Z).
Proof.
  intros Hp. rewrite call_ollama_run, Hp. cbn [fst ollama_result]. split.
  - intros Hs data generated Hj Hd. rewrite Hs, Hj, Hd.
    split; [reflexivity | apply strip_trimmed].
  - intros Hs. destruct (Z.eqb_spec (status_code resp) 200); [contradiction|].
    now split.
Qed.

(** C10. When the server answers with status 200 and a JSON object that
    has no field [response], the client returns the empty string rather
    than failing; so a run in which every answer is of this kind succeeds
    with an empty summary, no keyword and the sentiment neutral. *)
Theorem missing_response_field :
  (forall prompt model w log resp w' data,
      post w (generate_request prompt model) = (Responded resp, w') ->
      status_code resp = 200%Z ->
      json resp = Some (PyDict data) ->
      dict_get data (lit "response") = None ->
      fst (call_ollama post prompt model (w, log)) = Return [])
  /\ (forall w req,
         strip (text req) <> [] ->
         (forall w0 q, exists resp data,
               fst (post w0 q) = Responded resp
               /\ status_code resp = 200%Z
               /\ json resp = Some (PyDict data)
               /\ dict_get data (lit "response") = None) ->
         fst (serve post w req)
         = Return {| summary := []; keywords := []; sentiment := lit "neutral" |})
  /\ parseKeywords [] = []
  /\ normalizeSentiment [] = lit "neutral".
Proof.
  split; [|split; [|split; vm_compute; reflexivity]].
  - intros prompt model w log resp w' data Hp Hs Hj Hd.
    rewrite call_ollama_run, Hp. cbn [fst ollama_result].
    now rewrite Hs, Hj, Hd.
  - intros w req Hv Hall.
    assert (Hr : forall w0 q, ollama_result (fst (post w0 q)) = Return []).
    { intros w0 q. destruct (Hall w0 q) as (resp & data & E & Hs & Hj & Hd).
      rewrite E. cbn [ollama_result]. now rewrite Hs, Hj, Hd. }
    rewrite serve_run.
    destruct (strip (text req)) as [|c t]; [congruence|]. cbv zeta.
    pose proof (Hr w (generate_request (summary_prompt req) default_model)) as H1.
    destruct (post w _) as [r1 w1]. cbn [fst] in H1. rewrite H1.
    pose proof (Hr w1 (generate_request (keywords_prompt req) default_model)) as H2.
    destruct (post w1 _) as [r2 w2]. cbn [fst] in H2. rewrite H2.
    pose proof (Hr w2 (generate_request (sentiment_prompt req) default_model)) as H3.
    destruct (post w2 _) as [r3 w3]. cbn [fst] in H3. rewrite H3.
    reflexivity.
Qed.

End Runs.

(* ================================================================== *)
(** ** The general statements at concrete inputs *)
(* ================================================================== *)

(** The general part of C1 at the answer "alpha, beta, , gamma", which
    does not decode. *)
Lemma parseKeywords_fallback_witness :
  (forall ks, json_loads (lit "alpha, beta, , gamma") <> Some (PyList ks))
  /\ exists pieces trimmed,
      join [ch ","] pieces = lit "alpha, beta, , gamma"
      /\ Forall (fun p => ~ In (ch ",") p) pieces
      /\ Forall2 trimmed_of pieces trimmed
      /\ @parseKeywords plain_runtime (lit "alpha, beta, , gamma")
         = filter nonempty trimmed.
Proof.
  assert (H : forall ks, json_loads (lit "alpha, beta, , gamma") <> Some (PyList ks)).
  { intros ks. vm_compute. discriminate. }
  split; [exact H|].
  exact (proj1 (@parseKeywords_fallback plain_runtime) _ H).
Defined.

(** The general part of C2 at the text of the array alpha, beta, gamma. *)
Lemma parseKeywords_json_array_witness :
  json_loads (json_array_text alpha_beta_gamma)
  = Some (PyList (map PyStr alpha_beta_gamma))
  /\ @parseKeywords plain_runtime (json_array_text alpha_beta_gamma)
     = map (@py_str plain_runtime) (map PyStr alpha_beta_gamma).
Proof.
  assert (H : json_loads (json_array_text alpha_beta_gamma)
              = Some (PyList (map PyStr alpha_beta_gamma))).
  { vm_compute. reflexivity. }
  split; [exact H|].
  exact (proj1 (proj1 (@parseKeywords_json_array plain_runtime) _ _ H)).
Defined.



(** The general part of C3 at the answer "strongly positive overall". *)
Lemma normalizeSentiment_spec_witness :
  occurs_in (lit "positive") (@lower plain_runtime (lit "strongly positive overall"))
  /\ @normalizeSentiment plain_runtime (lit "strongly positive overall")
     = lit "positive".
Proof.
  assert (H : occurs_in (lit "positive")
                        (@lower plain_runtime (lit "strongly positive overall"))).
  { exists (lit "strongly "), (lit " overall"). vm_compute. reflexivity. }
  split; [exact H|].
  exact (proj1 (proj1 (@normalizeSentiment_spec plain_runtime) _) H).
Defined.

(** C4 at a blank request and at the request of the example. *)
Lemma analyze_empty_input_witness :
  (forallb isspace (text blank_request) = true
   /\ @serve plain_runtime _ script_post policy_script blank_request
      = (Raise (HTTPException 400 (lit "Text is empty")), []))
  /\ ((exists c, In c (text policy_request) /\ isspace c = false)
      /\ http_status
           (fst (@serve plain_runtime _ script_post policy_script policy_request))
         <> 400%Z).
Proof.
  split.
  - assert (H : forallb isspace (text blank_request) = true) by reflexivity.
    split; [exact H|].
    exact (proj1 (proj1 (@analyze_empty_input plain_runtime _ script_post
                           policy_script blank_request) H)).
  - assert (H : exists c, In c (text policy_request) /\ isspace c = false).
    { exists (ch "T"). split; [left|]; reflexivity. }
    split; [exact H|].
    exact (proj1 (proj2 (@analyze_empty_input plain_runtime _ script_post
                           policy_script policy_request) H)).
Defined.

(** C5 at a run whose second call is answered with status 503. *)
Lemma no_partial_response_witness :
  Exists (fun exchange => inference_failed (snd exchange))
         (snd (@serve plain_runtime _ script_post
                      [Responded (ok_response policy_summary);
                       Responded busy_response] policy_request))
  /\ http_status
       (fst (@serve plain_runtime _ script_post
                    [Responded (ok_response policy_summary);
                     Responded busy_response] policy_request)) = 500%Z.
Proof.
  assert (H : Exists (fun exchange => inference_failed (snd exchange))
                (snd (@serve plain_runtime _ script_post
                        [Responded (ok_response policy_summary);
                         Responded busy_response] policy_request))).
  { apply Exists_cons_tl, Exists_cons_hd. simpl. discriminate. }
  split; [exact H|].
  exact (proj2 (proj2 (@no_partial_response plain_runtime _ script_post _ _ H))).
Defined.

(** The claim of three calls for every valid request fails when the first
    call is answered with status 503: one request is posted. *)
Lemma always_three_calls_counterexample :
  ~ @always_three_calls plain_runtime _ script_post
      [Responded busy_response] policy_request.
Proof.
  unfold always_three_calls. intros H.
  assert (Hv : strip (text policy_request) <> []) by (vm_compute; discriminate).
  specialize (H Hv). vm_compute in H. discriminate.
Qed.

(** C6 at the request of the example, with the first call answered 503. *)
Lemma analyze_calls_in_order_witness :
  strip (text policy_request) <> []
  /\ snd (@serve plain_runtime _ script_post
                 [Responded busy_response] policy_request)
     = replay_until_raise script_post [Responded busy_response]
                          (planned policy_request).
Proof.
  assert (Hv : strip (text policy_request) <> []) by (vm_compute; discriminate).
  split; [exact Hv|].
  exact (proj1 (proj1 (proj2 (@analyze_calls_in_order plain_runtime _ script_post))
                      [Responded busy_response] policy_request Hv)).
Defined.

(** The claim of a positive word cap fails on a request with the cap -5,
    which is served like any other. *)
Lemma requires_positive_cap_counterexample :
  ~ @requires_positive_cap plain_runtime _ script_post policy_script
      negative_cap_request.
Proof.
  unfold requires_positive_cap. intros H.
  assert (Hs : http_status
                 (fst (@serve plain_runtime _ script_post policy_script
                              negative_cap_request)) = 200%Z)
    by (vm_compute; reflexivity).
  specialize (H Hs). vm_compute in H. discriminate.
Qed.

(** C7 at the request with the cap -5. *)
Lemma max_summary_words_cap_witness :
  strip (text negative_cap_request) <> []
  /\ option_map (fun exchange => json_prompt (fst exchange))
       (hd_error (snd (@serve plain_runtime _ script_post policy_script
                              negative_cap_request)))
     = Some (summary_prompt negative_cap_request).
Proof.
  assert (Hv : strip (text negative_cap_request) <> [])
    by (vm_compute; discriminate).
  split; [exact Hv|].
  exact (proj1 (proj2 (proj2 (proj2 (proj2
           (@max_summary_words_cap plain_runtime _ script_post)))))
           policy_script negative_cap_request Hv).
Defined.

(** C8 at an answer 200 with text between blanks, and at an answer 503. *)
Lemma call_ollama_status_witness :
  fst (call_ollama script_post (lit "Say yes.") default_model
         ([Responded (ok_response (lit "  yes  "))], []))
  = Return (lit "yes")
  /\ fst (call_ollama script_post (lit "Say yes.") default_model
            ([Responded busy_response], []))
     = Raise (HTTPException 500 (lit "Ollama error")).
Proof.
  split.
  - exact (proj1 (proj1 (@call_ollama_status _ script_post
             (lit "Say yes.") default_model
             [Responded (ok_response (lit "  yes  "))] []
             (ok_response (lit "  yes  ")) [] eq_refl)
             eq_refl _ (lit "  yes  ") eq_refl eq_refl)).
  - exact (proj1 (proj2 (@call_ollama_status _ script_post
             (lit "Say yes.") default_model
             [Responded busy_response] [] busy_response [] eq_refl)
             ltac:(discriminate))).
Defined.

(** C10 at a server that always answers with a bare object. *)
Lemma missing_response_field_witness :
  fst (@serve plain_runtime _ bare_post tt policy_request)
  = Return {| summary := []; keywords := []; sentiment := lit "neutral" |}.
Proof.
  assert (Hv : strip (text policy_request) <> []) by (vm_compute; discriminate).
  refine (proj1 (proj2 (@missing_response_field plain_runtime _ bare_post))
                tt policy_request Hv _).
  intros w0 q. exists bare_response, [(lit "done", PyBool true)].
  repeat split; reflexivity.
Defined.

(* ================================================================== *)
(** ** Further properties of the program *)
(* ================================================================== *)

Section FallbackFacts.
Context {RT : PyRuntime}.

Lemma lstrip_id s :
  (forall c, hd_error s = Some c -> isspace c = false) -> lstrip s = s.
Proof.
  destruct s as [|a s]; simpl; [reflexivity|].
  intros H. now rewrite (H a eq_refl).
Qed.

(** Trimming twice is trimming once. *)
Lemma strip_idem s : strip (strip s) = strip s.
Proof.
  destruct (strip_trimmed s) as (l & r & _ & _ & _ & Hh & Hl).
  unfold strip at 1. rewrite (lstrip_id _ Hh).
  unfold rstrip. rewrite (lstrip_id _ Hl). apply rev_involutive.
Qed.

Lemma strip_incl s c : In c (strip s) -> In c s.
Proof.
  destruct (strip_trimmed s) as (l & r & E & _). intros H.
  rewrite E. apply in_or_app. right. apply in_or_app. now left.
Qed.

Lemma strip_occurs s : occurs_in (strip s) s.
Proof. destruct (strip_trimmed s) as (l & r & E & _). now exists l, r. Qed.

Lemma occurs_in_trans a b c : occurs_in a b -> occurs_in b c -> occurs_in a c.
Proof.
  intros (p1 & q1 & ->) (p2 & q2 & ->). exists (p2 ++ p1), (q1 ++ q2).
  now rewrite <- !app_assoc.
Qed.

Lemma join_occurs sep l p : In p l -> occurs_in p (join sep l).
Proof.
  induction l as [|q l IH]; [intros []|].
  intros [<- | H].
  - destruct l as [|q' l].
    + exists [], []. simpl. now rewrite app_nil_r.
    + exists [], (sep ++ join sep (q' :: l)). reflexivity.
  - destruct l as [|q' l]; [destruct H|].
    destruct (IH H) as (a & b & E).
    exists (q ++ sep ++ a), b.
    change (join sep (q :: q' :: l)) with (q ++ sep ++ join sep (q' :: l)).
    rewrite E, <- !app_assoc. reflexivity.
Qed.

Lemma split_occurs sep s p : In p (split sep s) -> occurs_in p s.
Proof.
  intros H. rewrite <- (join_split sep s). now apply join_occurs.
Qed.

Lemma occurs_incl a b c : occurs_in a b -> In c a -> In c b.
Proof.
  intros (p & q & ->) H. apply in_or_app. right. apply in_or_app. now left.
Qed.

Lemma split_length sep s :
  List.length (split sep s) = S (count_occ N.eq_dec s sep).
Proof.
  induction s as [|c s IH]; [reflexivity|]. simpl.
  destruct (N.eqb_spec c sep) as [->|Hne].
  - destruct (N.eq_dec sep sep); [|congruence]. simpl. now rewrite IH.
  - destruct (N.eq_dec c sep); [congruence|].
    destruct (split sep s); simpl in *; lia.
Qed.

Lemma comma_fallback_in raw k :
  In k (comma_fallback raw) <->
  exists p, In p (split (ch ",") raw) /\ k = strip p /\ k <> [].
Proof.
  unfold comma_fallback. rewrite in_flat_map. split.
  - intros (p & Hp & Hk). exists p. split; [exact Hp|].
    destruct (strip p) as [|c t]; [destruct Hk|].
    destruct Hk as [<- | []]. split; [reflexivity | discriminate].
  - intros (p & Hp & -> & Hn). exists p. split; [exact Hp|].
    destruct (strip p) as [|c t]; [congruence | now left].
Qed.

Lemma comma_fallback_length raw :
  (List.length (comma_fallback raw) <= List.length (split (ch ",") raw))%nat.
Proof.
  unfold comma_fallback.
  induction (split (ch ",") raw) as [|p ps IH]; [simpl; lia|].
  simpl. rewrite length_app. destruct (strip p); simpl; lia.
Qed.

(** X1. When the raw keywords answer does not decode to a JSON array,
    every keyword returned is a non-empty piece of the answer itself,
    without whitespace around it and without a comma, and there is at most
    one keyword more than there are commas in the answer. *)
Theorem fallback_keywords_clean raw :
  (forall ks, json_loads raw <> Some (PyList ks)) ->
  Forall (fun k => clean_keyword k /\ occurs_in k raw) (parseKeywords raw)
  /\ (List.length (parseKeywords raw)
      <= S (count_occ N.eq_dec raw (ch ",")))%nat.
Proof.
  intros H. rewrite (parseKeywords_not_list raw H). split.
  - apply Forall_forall. intros k Hk.
    apply comma_fallback_in in Hk as (p & Hp & -> & Hn).
    split; [split; [exact Hn | split; [apply strip_idem|]]|].
    + intros Hc. apply strip_incl in Hc.
      pose proof (split_no_sep (ch ",") raw) as Hs.
      rewrite Forall_forall in Hs. exact (Hs p Hp Hc).
    + eapply occurs_in_trans;
        [apply strip_occurs | now apply (split_occurs (ch ","))].
  - rewrite <- split_length. apply comma_fallback_length.
Qed.

End FallbackFacts.

Section FallbackRoundTrip.
Context {RT : PyRuntime}.

Lemma split_piece sep k rest :
  ~ In sep k -> split sep (k ++ sep :: rest) = k :: split sep rest.
Proof.
  induction k as [|c k IH]; intros Hk; simpl.
  - now rewrite N.eqb_refl.
  - destruct (N.eqb_spec c sep) as [->|Hne]; [exfalso; apply Hk; now left|].
    rewrite IH by (intros H; apply Hk; now right). reflexivity.
Qed.

Lemma split_whole sep k : ~ In sep k -> split sep k = [k].
Proof.
  induction k as [|c k IH]; intros Hk; simpl; [reflexivity|].
  destruct (N.eqb_spec c sep) as [->|Hne]; [exfalso; apply Hk; now left|].
  rewrite IH by (intros H; apply Hk; now right). reflexivity.
Qed.

Lemma strip_after_space s : strip (32 :: s) = strip s.
Proof. reflexivity. Qed.

Lemma comma_fallback_join k ks :
  Forall clean_keyword (k :: ks) ->
  comma_fallback (join (lit ", ") (k :: ks)) = k :: ks.
Proof.
  unfold comma_fallback. revert k.
  induction ks as [|k' ks IH]; intros k Hc;
    inversion Hc as [|? ? (Hn & Hs & Hk) Hc']; subst.
  - simpl join. rewrite split_whole by exact Hk. simpl.
    rewrite Hs. destruct k; [congruence | reflexivity].
  - change (join (lit ", ") (k :: k' :: ks))
      with (k ++ ch "," :: 32 :: join (lit ", ") (k' :: ks)).
    rewrite split_piece by exact Hk. cbn [flat_map].
    rewrite Hs. destruct k as [|c t]; [congruence|].
    cbn [app]. f_equal.
    specialize (IH k' Hc').
    inversion Hc' as [|? ? (Hn' & Hs' & Hk') _]; subst.
    destruct ks as [|k'' ks].
    + simpl join in *.
      assert (H32 : ~ In (ch ",") (32 :: k')) by (intros [H | H]; [discriminate | auto]).
      rewrite split_whole by exact H32. rewrite split_whole in IH by exact Hk'.
      cbn [flat_map] in *. rewrite strip_after_space. exact IH.
    + change (join (lit ", ") (k' :: k'' :: ks))
        with (k' ++ ch "," :: 32 :: join (lit ", ") (k'' :: ks)) in *.
      assert (H32 : ~ In (ch ",") (32 :: k')) by (intros [H | H]; [discriminate | auto]).
      change (32 :: k' ++ ?x) with ((32 :: k') ++ x).
      rewrite split_piece by exact H32. rewrite split_piece in IH by exact Hk'.
      cbn [flat_map] in *. rewrite strip_after_space. exact IH.
Qed.

(** Only a text whose first character after JSON whitespace is an opening
    bracket decodes to a list. *)
Lemma json_loads_list_bracket raw vs :
  json_loads raw = Some (PyList vs) ->
  exists rest, skip_ws raw = ch "[" :: rest.
Proof.
  unfold json_loads. cbn [scan_once].
  destruct (skip_ws raw) as [|c rest]; [discriminate|].
  destruct (N.eqb_spec c (ch "[")) as [->|Hne]; [intros _; now exists rest|].
  intros H. exfalso.
  destruct (c =? dquote).
  { destruct (scanstring rest) as [[t r]|]; [|discriminate].
    destruct (skip_ws r); discriminate. }
  destruct (c =? ch "{").
  { unfold parse_object in H. destruct (skip_ws rest) as [|c' s1]; [discriminate|].
    destruct (c' =? ch "}"); [destruct (skip_ws s1); discriminate|].
    destruct (object_items _ _ _ _) as [[d r]|]; [|discriminate].
    destruct (skip_ws r); discriminate. }
  assert (Hk : forall (b : bool) v r (o : option (pyval * str)),
             (forall l, v <> PyList l) ->
             match (if b then Some (v, r) else o) with
             | Some (v0, rest0) =>
               match skip_ws rest0 with
               | [] => Some v0
               | _ :: _ => None
               end
             | None => None
             end = Some (PyList vs) ->
             b = false).
  { intros [] v r o Hv Hb; [|reflexivity].
    destruct (skip_ws r); [|discriminate]. injection Hb as Hb.
    now contradiction (Hv vs). }
  repeat match type of H with
         | context [if ?b then Some (?v, ?r) else ?o] =>
           let E := fresh "E" in
           assert (E : b = false)
             by (apply (Hk b v r o); [discriminate | exact H]);
           rewrite E in H; clear E
         end.
  unfold match_number in H.
  destruct (match_integer (c :: rest)) as [[i s1]|]; [|discriminate].
  destruct (match_frac s1) as [f s2]. destruct (match_exp s2) as [e s3].
  destruct (f ++ e); destruct (skip_ws s3); discriminate.
Qed.

Lemma skip_ws_not_space c s : isspace c = false -> skip_ws (c :: s) = c :: s.
Proof.
  intros H. simpl. destruct (is_json_ws c) eqn:E; [|reflexivity].
  unfold is_json_ws in E.
  repeat (apply orb_true_iff in E as [E | E]);
    apply N.eqb_eq in E; subst c; discriminate.
Qed.

(** X2. Keywords that are not empty, have no whitespace around them and no
    comma come back as they are from the text that lists them separated by
    a comma and a space, as long as the first one does not begin with an
    opening bracket. *)
Theorem fallback_round_trip ks :
  Forall clean_keyword ks ->
  (forall k, hd_error ks = Some k -> hd_error k <> Some (ch "[")) ->
  parseKeywords (join (lit ", ") ks) = ks.
Proof.
  intros Hc Hb.
  assert (Hj : forall vs, json_loads (join (lit ", ") ks) <> Some (PyList vs)).
  { intros vs H. apply json_loads_list_bracket in H as (rest & H).
    destruct ks as [|k ks]; [discriminate|].
    inversion Hc as [|? ? (Hn & Hs & Hk) _]; subst.
    destruct k as [|c t]; [congruence|].
    assert (Hc0 : isspace c = false).
    { destruct (strip_trimmed (c :: t)) as (l & r & _ & _ & _ & Hh & _).
      rewrite Hs in Hh. now apply Hh. }
    assert (E : exists x, join (lit ", ") ((c :: t) :: ks) = c :: x).
    { destruct ks; simpl; eauto. }
    destruct E as (x & E). pose proof (skip_ws_not_space c x Hc0) as Hw.
    unfold str, char in *. rewrite E, Hw in H.
    injection H as -> _. now apply (Hb _ eq_refl). }
  rewrite (parseKeywords_not_list _ Hj).
  destruct ks as [|k ks]; [reflexivity|]. now apply comma_fallback_join.
Qed.
End FallbackRoundTrip.

Section BlankAnswer.
Context {RT : PyRuntime}.

Lemma blank_char_tests c :
  blank_or_comma c = true ->
  (c =? dquote) = false /\ (c =? ch "{") = false /\ (c =? ch "[") = false
  /\ (c =? ch "n") = false /\ (c =? ch "t") = false /\ (c =? ch "f") = false
  /\ (c =? ch "N") = false /\ (c =? ch "I") = false /\ (c =? ch "-") = false
  /\ (c =? 48) = false /\ isdigit c = false.
Proof.
  intros H.
  repeat match goal with
         | |- _ /\ _ => split
         | |- (c =? ?k) = false =>
           apply N.eqb_neq; intros ->; vm_compute in H; discriminate
         end.
  unfold isdigit. destruct (N.leb_spec 48 c); [|reflexivity].
  destruct (N.leb_spec c 57); [|reflexivity]. exfalso.
  assert (Hc : c = 48 \/ c = 49 \/ c = 50 \/ c = 51 \/ c = 52 \/ c = 53
               \/ c = 54 \/ c = 55 \/ c = 56 \/ c = 57) by lia.
  repeat destruct Hc as [-> | Hc]; try subst c; vm_compute in H; discriminate.
Qed.

Lemma scan_once_blank f c rest :
  blank_or_comma c = true -> scan_once f (c :: rest) = None.
Proof.
  intros H. destruct f as [|f]; [reflexivity|].
  destruct (blank_char_tests c H)
    as (Hq & Ho & Ha & Hn & Ht & Hf & HN & HI & Hm & H0 & Hd).
  cbn [scan_once]. rewrite Hq, Ho, Ha.
  cbn [startswith lit list_ascii_of_string map].
  change (N_of_ascii "n") with (ch "n"). change (N_of_ascii "t") with (ch "t").
  change (N_of_ascii "f") with (ch "f"). change (N_of_ascii "N") with (ch "N").
  change (N_of_ascii "I") with (ch "I"). change (N_of_ascii "-") with (ch "-").
  rewrite Hn, Ht, Hf, HN, HI, Hm. cbn [andb].
  unfold match_number, match_integer. now rewrite Hm, H0, Hd.
Qed.

Lemma skip_ws_forallb p s :
  forallb p s = true -> forallb p (skip_ws s) = true.
Proof.
  induction s as [|c s IH]; [reflexivity|]. intros H. simpl.
  destruct (is_json_ws c); [|exact H].
  simpl in H. apply andb_true_iff in H as [_ H]. now apply IH.
Qed.

Lemma json_loads_blank raw :
  forallb blank_or_comma raw = true -> json_loads raw = None.
Proof.
  intros H. apply skip_ws_forallb in H. unfold json_loads.
  destruct (skip_ws raw) as [|c rest]; [reflexivity|].
  simpl in H. apply andb_true_iff in H as [H _].
  now rewrite scan_once_blank.
Qed.

Lemma comma_fallback_blank raw :
  forallb blank_or_comma raw = true -> comma_fallback raw = [].
Proof.
  intros H. unfold comma_fallback.
  assert (Hp : Forall (fun p => strip p = []) (split (ch ",") raw)).
  { apply Forall_forall. intros p Hp. apply strip_nil, forallb_forall.
    intros c Hc.
    pose proof (split_no_sep (ch ",") raw) as Hs.
    rewrite Forall_forall in Hs. specialize (Hs p Hp).
    rewrite forallb_forall in H.
    specialize (H c (occurs_incl _ _ _ (split_occurs _ _ _ Hp) Hc)).
    unfold blank_or_comma in H. apply orb_true_iff in H as [H | H]; [exact H|].
    apply N.eqb_eq in H. subst c. contradiction. }
  induction Hp as [|p ps E _ IH]; [reflexivity|].
  simpl. now rewrite E, IH.
Qed.

(** X3. A raw keywords answer made of whitespace and commas only, the empty
    answer included, gives no keyword at all. *)
Theorem blank_answer_no_keywords raw :
  forallb blank_or_comma raw = true -> parseKeywords raw = [].
Proof.
  intros H. unfold parseKeywords.
  rewrite (json_loads_blank raw H). now apply comma_fallback_blank.
Qed.

Lemma label_fixed l : In l labels -> normalizeSentiment l = l.
Proof.
  intros [<- | [<- | [<- | []]]]; vm_compute; reflexivity.
Qed.

Lemma normalizeSentiment_label raw : In (normalizeSentiment raw) labels.
Proof.
  unfold normalizeSentiment, labels. cbv zeta.
  destruct (contains (lower raw) (lit "positive"));
    [|destruct (contains (lower raw) (lit "negative"))]; simpl; auto.
Qed.

(** X4. The sentiment step is idempotent: the three labels are answers
    that it maps to themselves, so normalising a label again changes
    nothing. *)
Theorem normalizeSentiment_idempotent raw :
  normalizeSentiment (normalizeSentiment raw) = normalizeSentiment raw.
Proof. apply label_fixed, normalizeSentiment_label. Qed.
End BlankAnswer.

Section RunFacts.
Context {RT : PyRuntime} {World : Type}.
Variable post : World -> Request -> PostResult * World.

(** X5. Whatever the request and whatever the server does, every request
    the handler posts goes to the local endpoint with the model llama3, no
    streaming and a timeout of 120 seconds. *)
Theorem posts_fixed_shape w req :
  Forall (fun exchange => fixed_shape (fst exchange)) (snd (serve post w req)).
Proof.
  rewrite serve_run.
  destruct (strip (text req)) as [|c t]; [constructor|]. cbv zeta.
  destruct (post w _) as [r1 w1].
  destruct (ollama_result r1) as [s1|e];
    [|repeat constructor].
  destruct (post w1 _) as [r2 w2].
  destruct (ollama_result r2) as [s2|e];
    [|repeat constructor].
  destruct (post w2 _) as [r3 w3].
  destruct (ollama_result r3) as [s3|e]; repeat constructor.
Qed.

(** X6. [call_ollama] posts exactly one request, whatever comes back, and
    it returns a string exactly when the answer has status 200 and a body
    that is a JSON object whose field [response] is absent (the string is
    then empty) or a string (it is then returned trimmed). *)
Theorem call_ollama_returns prompt model w log :
  snd (call_ollama post prompt model (w, log))
  = (snd (post w (generate_request prompt model)),
     log ++ [(generate_request prompt model,
              fst (post w (generate_request prompt model)))])
  /\ forall t,
      fst (call_ollama post prompt model (w, log)) = Return t <->
      exists resp data,
        fst (post w (generate_request prompt model)) = Responded resp
        /\ status_code resp = 200%Z
        /\ json resp = Some (PyDict data)
        /\ ((dict_get data (lit "response") = None /\ t = [])
            \/ exists generated,
                dict_get data (lit "response") = Some (PyStr generated)
                /\ t = strip generated).
Proof.
  rewrite call_ollama_run. cbn [fst snd]. split; [reflexivity|].
  intros t. destruct (fst (post w (generate_request prompt model))) as [resp|].
  2:{ split; [discriminate | intros (resp & data & H & _); discriminate]. }
  cbn [ollama_result]. destruct (Z.eqb_spec (status_code resp) 200) as [Hs|Hs].
  2:{ split; [discriminate|].
      intros (resp' & data & [= <-] & Hs' & _). contradiction. }
  destruct (json resp) as [v|] eqn:Ej.
  2:{ split; [discriminate|].
      intros (resp' & data & [= <-] & _ & Hj & _). congruence. }
  destruct v as [| | | | |l|data];
    try (split; [discriminate|];
         intros (resp' & data' & [= <-] & _ & Hj & _); congruence).
  destruct (dict_get data (lit "response")) as [v|] eqn:Ed.
  - destruct v as [| | | |g| |];
      try (split; [discriminate|];
           intros (resp' & data' & [= <-] & _ & Hj & [[Hd _] | (g' & Hd & _)]);
           congruence).
    split.
    + intros [= <-]. exists resp, data. repeat split; try assumption.
      right. now exists g.
    + intros (resp' & data' & [= <-] & _ & Hj & [[Hd _] | (g' & Hd & ->)]);
        congruence.
  - split.
    + intros [= <-]. exists resp, data. repeat split; try assumption.
      now left.
    + intros (resp' & data' & [= <-] & _ & Hj & [[Hd ->] | (g' & Hd & _)]);
        [reflexivity | congruence].
Qed.

Lemma ollama_result_stripped res t :
  ollama_result res = Return t -> strip t = t.
Proof.
  destruct res as [resp|]; simpl; [|discriminate].
  destruct (status_code resp =? 200)%Z; [|discriminate].
  destruct (json resp) as [[]|]; try discriminate.
  destruct (dict_get items (lit "response")) as [[]|]; try discriminate.
  - intros [= <-]. apply strip_idem.
  - intros [= <-]. reflexivity.
Qed.

(** X7. A response is returned only for a text that is not blank, and
    every response returned has a summary without whitespace at either
    end and a sentiment that is one of positive, neutral, negative. *)
Theorem response_invariants w req r :
  fst (serve post w req) = Return r ->
  strip (text req) <> []
  /\ strip (summary r) = summary r
  /\ In (sentiment r) labels.
Proof.
  rewrite serve_run.
  destruct (strip (text req)) as [|c t]; [discriminate|]. cbv zeta.
  destruct (post w _) as [r1 w1].
  destruct (ollama_result r1) as [s1|e] eqn:E1; [|discriminate].
  destruct (post w1 _) as [r2 w2].
  destruct (ollama_result r2) as [s2|e]; [|discriminate].
  destruct (post w2 _) as [r3 w3].
  destruct (ollama_result r3) as [s3|e]; [|discriminate].
  cbn [fst]. intros [= <-]. cbn [summary sentiment].
  split; [discriminate|]. split.
  - exact (ollama_result_stripped _ _ E1).
  - apply normalizeSentiment_label.
Qed.

Lemma answers_result res g : answers res g -> ollama_result res = Return (strip g).
Proof.
  intros (resp & data & -> & Hs & Hj & Hd). cbn [ollama_result].
  now rewrite Hs, Hj, Hd.
Qed.

(** X8. When the text is not blank and the server answers the three
    requests with the texts [g1], [g2] and [g3], the response holds [g1]
    trimmed as summary, the keywords read from [g2] trimmed, and the label
    of [g3] trimmed as sentiment. *)
Theorem analyze_composes w req g1 g2 g3 :
  strip (text req) <> [] ->
  Forall2 answers (map snd (replay post w (planned req))) [g1; g2; g3] ->
  fst (serve post w req)
  = Return {| summary := strip g1;
              keywords := parseKeywords (strip g2);
              sentiment := normalizeSentiment (strip g3) |}.
Proof.
  intros Hv. rewrite serve_run.
  destruct (strip (text req)) as [|c t]; [congruence|].
  cbv zeta. cbn [planned map replay].
  destruct (post w _) as [r1 w1]. cbn [map snd].
  destruct (post w1 _) as [r2 w2]. cbn [map snd].
  destruct (post w2 _) as [r3 w3]. cbn [map snd].
  intros H. inversion H as [|? ? ? ? A1 H']; subst.
  inversion H' as [|? ? ? ? A2 H'']; subst.
  inversion H'' as [|? ? ? ? A3 _]; subst.
  now rewrite (answers_result _ _ A1), (answers_result _ _ A2),
    (answers_result _ _ A3).
Qed.

Lemma refused_result res :
  refused res -> ollama_result res = Raise (HTTPException 500 (lit "Ollama error")).
Proof.
  intros (resp & -> & Hs). cbn [ollama_result].
  now destruct (Z.eqb_spec (status_code resp) 200).
Qed.

(** X10. Which error the caller sees: when an exchange of the run was
    answered with a status other than 200, the handler raises the 500
    error with the detail "Ollama error"; when the server could not be
    reached, it lets the error of the HTTP client through. *)
Theorem failure_surfaces w req :
  (Exists (fun exchange => refused (snd exchange)) (snd (serve post w req)) ->
   fst (serve post w req) = Raise (HTTPException 500 (lit "Ollama error")))
  /\ (Exists (fun exchange => snd exchange = Unreachable)
             (snd (serve post w req)) ->
      fst (serve post w req) = Raise HTTPError).
Proof.
  rewrite serve_run.
  destruct (strip (text req)) as [|c t];
    [split; intros H; inversion H|]. cbv zeta.
  destruct (post w _) as [r1 w1].
  destruct (ollama_result r1) as [s1|e1] eqn:E1;
    [destruct (post w1 _) as [r2 w2];
     destruct (ollama_result r2) as [s2|e2] eqn:E2;
     [destruct (post w2 _) as [r3 w3];
      destruct (ollama_result r3) as [s3|e3] eqn:E3|]|];
    (split; intros H; cbn [snd fst] in *;
     repeat match goal with
            | H : Exists _ (_ :: _) |- _ => inversion H; clear H; subst
            | H : Exists _ [] |- _ => inversion H
            end; cbn [snd fst] in *;
     repeat match goal with
            | H : refused _ |- _ => apply refused_result in H
            end;
     subst; cbn [ollama_result] in *; congruence).
Qed.
End RunFacts.

Section PromptFacts.
Context {RT : PyRuntime}.

(** X11. An answer whose first character after JSON whitespace is not an
    opening bracket is never read as an array: its keywords are those of
    the comma fallback, whatever else the answer holds. *)
Theorem not_bracket_falls_back raw :
  (forall rest, skip_ws raw <> ch "[" :: rest) ->
  parseKeywords raw = comma_fallback raw.
Proof.
  intros H. apply parseKeywords_not_list. intros ks Hk.
  apply json_loads_list_bracket in Hk as (rest & Hk). exact (H rest Hk).
Qed.

Lemma str_of_Z_inj n m : str_of_Z n = str_of_Z m -> n = m.
Proof.
  intros H. rewrite <- (int_of_lexeme_str_of_Z n), <- (int_of_lexeme_str_of_Z m).
  now rewrite H.
Qed.

(** Two writings in decimal characters, each followed by a character that
    is not one, agree when the whole texts agree. *)
Lemma decimal_prefix_unique a : forall b c x d y,
  forallb decimal_char a = true -> forallb decimal_char b = true ->
  decimal_char c = false -> decimal_char d = false ->
  a ++ c :: x = b ++ d :: y -> a = b /\ x = y.
Proof.
  induction a as [|a0 a IH]; intros [|b0 b] c x d y Ha Hb Hc Hd E;
    simpl in *.
  - injection E as _ ->. now split.
  - injection E as -> _. apply andb_true_iff in Hb as [Hb _]. congruence.
  - injection E as -> _. apply andb_true_iff in Ha as [Ha _]. congruence.
  - injection E as -> E. apply andb_true_iff in Ha as [_ Ha].
    apply andb_true_iff in Hb as [_ Hb].
    destruct (IH b c x d y Ha Hb Hc Hd E) as [-> ->]. now split.
Qed.

(** X12. The prompts carry the request without loss: two requests with the
    same summary prompt have the same word cap and the same text, and two
    requests with the same keywords prompt, or the same sentiment prompt,
    have the same text. *)
Theorem prompts_determine_request req1 req2 :
  (summary_prompt req1 = summary_prompt req2 -> req1 = req2)
  /\ (keywords_prompt req1 = keywords_prompt req2 -> text req1 = text req2)
  /\ (sentiment_prompt req1 = sentiment_prompt req2 -> text req1 = text req2).
Proof.
  split; [|split].
  - destruct req1 as [t1 n1], req2 as [t2 n2].
    unfold summary_prompt. cbn [text max_summary_words]. intros E.
    apply app_inv_head in E.
    change (lit " words. " ++ ?x) with (32 :: tl (lit " words. ") ++ x) in E.
    apply decimal_prefix_unique in E;
      [|apply str_of_Z_decimal_chars | apply str_of_Z_decimal_chars
       |reflexivity | reflexivity].
    destruct E as [En Et]. apply str_of_Z_inj in En.
    do 6 apply app_inv_head in Et. now subst.
  - unfold keywords_prompt. intros E. now do 6 apply app_inv_head in E.
  - unfold sentiment_prompt. intros E. now do 6 apply app_inv_head in E.
Qed.
End PromptFacts.

(* ================================================================== *)
(** ** The further properties at concrete inputs *)
(* ================================================================== *)

(** X1 at the answer "alpha, beta, , gamma". *)
Lemma fallback_keywords_clean_witness :
  (forall ks, json_loads (lit "alpha, beta, , gamma") <> Some (PyList ks))
  /\ Forall (fun k => clean_keyword k
                      /\ occurs_in k (lit "alpha, beta, , gamma"))
            (@parseKeywords plain_runtime (lit "alpha, beta, , gamma")).
Proof.
  assert (H : forall ks, json_loads (lit "alpha, beta, , gamma") <> Some (PyList ks)).
  { intros ks. vm_compute. discriminate. }
  split; [exact H|].
  exact (proj1 (@fallback_keywords_clean plain_runtime _ H)).
Defined.

(** X2 at the keywords alpha, beta, gamma. *)
Lemma fallback_round_trip_witness :
  Forall clean_keyword alpha_beta_gamma
  /\ @parseKeywords plain_runtime (join (lit ", ") alpha_beta_gamma)
     = alpha_beta_gamma.
Proof.
  assert (Hc : Forall clean_keyword alpha_beta_gamma).
  { repeat constructor; try discriminate;
      intros H; repeat destruct H as [H | H]; try discriminate; exact H. }
  split; [exact Hc|].
  refine (@fallback_round_trip plain_runtime alpha_beta_gamma Hc _).
  intros k [= <-]. discriminate.
Defined.

(** X3 at an answer of two commas between blanks. *)
Lemma blank_answer_no_keywords_witness :
  forallb blank_or_comma (lit " , ,  ") = true
  /\ @parseKeywords plain_runtime (lit " , ,  ") = [].
Proof.
  split; [reflexivity|].
  exact (@blank_answer_no_keywords plain_runtime (lit " , ,  ") eq_refl).
Defined.

(** X7 at the run of the example. *)
Lemma response_invariants_witness :
  fst (@serve plain_runtime _ script_post policy_script policy_request)
  = Return {| summary := policy_summary;
              keywords := [lit "policy"; lit "employees"];
              sentiment := lit "positive" |}
  /\ strip policy_summary = policy_summary
  /\ In (lit "positive") labels.
Proof.
  assert (H : fst (@serve plain_runtime _ script_post policy_script policy_request)
              = Return {| summary := policy_summary;
                          keywords := [lit "policy"; lit "employees"];
                          sentiment := lit "positive" |})
    by (vm_compute; reflexivity).
  split; [exact H|].
  exact (proj2 (@response_invariants plain_runtime _ script_post
                  policy_script policy_request _ H)).
Defined.

(** X8 at the run of the example. *)
Lemma analyze_composes_witness :
  strip (text policy_request) <> []
  /\ fst (@serve plain_runtime _ script_post policy_script policy_request)
     = Return {| summary := strip policy_summary;
                 keywords :=
                   @parseKeywords plain_runtime
                     (strip (json_array_text [lit "policy"; lit "employees"]));
                 sentiment := @normalizeSentiment plain_runtime
                                (strip (lit "positive")) |}.
Proof.
  assert (Hv : strip (text policy_request) <> []) by (vm_compute; discriminate).
  split; [exact Hv|].
  refine (@analyze_composes plain_runtime _ script_post policy_script
            policy_request _ _ _ Hv _).
  repeat constructor; eexists; eexists; repeat split; reflexivity.
Defined.

(** X10 at a run whose second call is answered with status 503. *)
Lemma failure_surfaces_witness :
  fst (@serve plain_runtime _ script_post
              [Responded (ok_response policy_summary); Responded busy_response]
              policy_request)
  = Raise (HTTPException 500 (lit "Ollama error")).
Proof.
  refine (proj1 (@failure_surfaces plain_runtime _ script_post
                   [Responded (ok_response policy_summary);
                    Responded busy_response] policy_request) _).
  apply Exists_cons_tl, Exists_cons_hd.
  exists busy_response. split; [reflexivity | discriminate].
Defined.

(** X11 at an answer that wraps the array in a sentence. *)
Lemma not_bracket_falls_back_witness :
  (forall rest, skip_ws (lit "Keywords: policy, staff") <> ch "[" :: rest)
  /\ @parseKeywords plain_runtime (lit "Keywords: policy, staff")
     = comma_fallback (lit "Keywords: policy, staff").
Proof.
  assert (H : forall rest,
             skip_ws (lit "Keywords: policy, staff") <> ch "[" :: rest)
    by (intros rest; discriminate).
  split; [exact H|].
  exact (@not_bracket_falls_back plain_runtime _ H).
Defined.
